(** * Stock ledger and balance aggregation of backend/server.py

    A shallow embedding of the routes of the goods receipt and goods issue
    service: [update_stock], the master-data routes ([create_location],
    [create_material]), the postings ([create_goods_receipt],
    [create_goods_issue]), purchase orders, invoices, the listings and the
    dashboard.

    Modelling conventions.
    - A MongoDB collection is the list of the documents stored in it, in
      insertion order; [find_one] returns the first document that matches and
      [update_one] rewrites the first document that matches.
    - [insert_one] encodes the document to BSON before anything reaches the
      database.  The encoder has encodings for strings (string enums
      included), floats, [None], [datetime.datetime], lists and dicts; it has
      none for [datetime.date] and raises [bson.errors.InvalidDocument] on
      the first such value it meets, in which case nothing is stored.  The
      documents of goods receipts, goods issues, ledger entries, purchase
      orders and invoices all carry [date] fields.
    - The handlers are [async] but every database call is awaited in program
      order; one handler invocation is modelled as one sequential run.
    - Quantities are Python floats in the source and are written as [Z] here.
      The statements use the single sums and negations that the code
      computes, one operation at a time; none of them relies on a law of
      exact arithmetic that rounding breaks (associativity, cancellation, a
      sum strictly above its summand).
    - [uuid.uuid4()] and [datetime.utcnow()] are read from two oracles carried
      by the state; each call consumes one tick.  The database keeps time
      stamps to the millisecond: [clock] gives the time as a stored document
      shows it.  The object a create route returns carries the stamp before
      it was cut, and no statement below speaks about that one.
    - An exception aborts the handler; writes already made persist (there is
      no transaction in the source), so a failed run still returns the state
      it reached. *)

From Stdlib Require Import ZArith List String Ascii Bool Lia.
From Stdlib Require Import Permutation Sorted.
Import ListNotations.

Open Scope string_scope.
Open Scope Z_scope.

(** ** Enumerations *)

Inductive MovementType : Type :=
| GOODS_RECEIPT
| GOODS_ISSUE_CONSUMPTION
| GOODS_ISSUE_SALES
| STOCK_TRANSFER
| RETURN_TO_VENDOR
| RETURN_FROM_CUSTOMER.

Definition MovementType_value (m : MovementType) : string :=
  match m with
  | GOODS_RECEIPT => "101"
  | GOODS_ISSUE_CONSUMPTION => "201"
  | GOODS_ISSUE_SALES => "601"
  | STOCK_TRANSFER => "311"
  | RETURN_TO_VENDOR => "122"
  | RETURN_FROM_CUSTOMER => "161"
  end.

(** Enum members compare by their string value. *)
Definition MovementType_eqb (a b : MovementType) : bool :=
  String.eqb (MovementType_value a) (MovementType_value b).

Inductive UnitOfMeasure : Type := PC | KG | LT | MT | EA.

Definition UnitOfMeasure_value (u : UnitOfMeasure) : string :=
  match u with
  | PC => "PC" | KG => "KG" | LT => "LT" | MT => "MT" | EA => "EA"
  end.

(** ** Models *)

(** [datetime.date], a calendar day, and [datetime.datetime]. *)
Record date : Type := mkDate { year : Z; month : Z; day : Z }.

Definition datetime := Z.

(** ** Values as the BSON encoder meets them

    What [model.dict()] hands to [insert_one]: nested models have become
    dicts, string enums are strings, every other field is the Python value it
    was. *)

#[local] Unset Elimination Schemes.

Inductive py_value : Type :=
| py_none
| py_str (s : string)
| py_float (x : Z)
| py_datetime (t : datetime)
| py_date (d : date)
| py_list (items : list py_value)
| py_dict (fields : list (string * py_value)).

#[local] Set Elimination Schemes.

(** The first value, in document order, that the encoder cannot encode. *)
Fixpoint first_unencodable (v : py_value) : option py_value :=
  match v with
  | py_date _ => Some v
  | py_list items =>
      (fix scan (l : list py_value) : option py_value :=
         match l with
         | [] => None
         | x :: rest =>
             match first_unencodable x with
             | Some bad => Some bad
             | None => scan rest
             end
         end) items
  | py_dict fields =>
      (fix scan (l : list (string * py_value)) : option py_value :=
         match l with
         | [] => None
         | (_, x) :: rest =>
             match first_unencodable x with
             | Some bad => Some bad
             | None => scan rest
             end
         end) fields
  | _ => None
  end.

(** An [Optional] field. *)
Definition optional {A : Type} (f : A -> py_value) (o : option A) : py_value :=
  match o with
  | Some a => f a
  | None => py_none
  end.

Module Location.
Record t : Type := mk {
  id : string;
  plant_code : string;
  plant_name : string;
  storage_location : string;
  description : option string;
  created_at : datetime
}.
End Location.

Module LocationCreate.
Record t : Type := mk {
  plant_code : string;
  plant_name : string;
  storage_location : string;
  description : option string
}.
End LocationCreate.

Module Material.
Record t : Type := mk {
  id : string;
  material_code : string;
  material_description : string;
  material_group : option string;
  unit_of_measure : UnitOfMeasure;
  created_at : datetime
}.
End Material.

Module MaterialCreate.
Record t : Type := mk {
  material_code : string;
  material_description : string;
  material_group : option string;
  unit_of_measure : UnitOfMeasure
}.
End MaterialCreate.

Module GoodsReceiptItem.
Record t : Type := mk {
  material_id : string;
  material_code : string;
  quantity : Z;
  unit_price : option Z;
  total_amount : option Z
}.
End GoodsReceiptItem.

Module GoodsReceipt.
Record t : Type := mk {
  id : string;
  document_number : string;
  po_id : option string;
  po_number : option string;
  invoice_id : option string;
  vendor_code : string;
  vendor_name : string;
  location_id : string;
  plant_code : string;
  storage_location : string;
  posting_date : date;
  document_date : date;
  items : list GoodsReceiptItem.t;
  header_text : option string;
  created_at : datetime
}.
End GoodsReceipt.

Module GoodsReceiptCreate.
Record t : Type := mk {
  po_id : option string;
  po_number : option string;
  invoice_id : option string;
  vendor_code : string;
  vendor_name : string;
  location_id : string;
  posting_date : date;
  document_date : date;
  items : list GoodsReceiptItem.t;
  header_text : option string
}.
End GoodsReceiptCreate.

Module GoodsIssueItem.
Record t : Type := mk {
  material_id : string;
  material_code : string;
  quantity : Z;
  cost_center : option string
}.
End GoodsIssueItem.

Module GoodsIssue.
Record t : Type := mk {
  id : string;
  document_number : string;
  movement_type : MovementType;
  location_id : string;
  plant_code : string;
  storage_location : string;
  posting_date : date;
  document_date : date;
  items : list GoodsIssueItem.t;
  header_text : option string;
  created_at : datetime
}.
End GoodsIssue.

Module GoodsIssueCreate.
Record t : Type := mk {
  movement_type : MovementType;
  location_id : string;
  posting_date : date;
  document_date : date;
  items : list GoodsIssueItem.t;
  header_text : option string
}.
End GoodsIssueCreate.

Module StockMovement.
Record t : Type := mk {
  id : string;
  material_id : string;
  material_code : string;
  location_id : string;
  plant_code : string;
  storage_location : string;
  movement_type : MovementType;
  document_number : string;
  quantity : Z;
  unit_of_measure : string;
  posting_date : date;
  reference_document : option string;
  created_at : datetime
}.
End StockMovement.

Module CurrentStock.
Record t : Type := mk {
  id : string;
  material_id : string;
  material_code : string;
  material_description : string;
  location_id : string;
  plant_code : string;
  storage_location : string;
  current_quantity : Z;
  unit_of_measure : string;
  last_updated : datetime
}.
End CurrentStock.

(** ** The database and the run-time state *)

Record world : Type := mkWorld {
  materials : list Material.t;
  locations : list Location.t;
  current_stock : list CurrentStock.t;
  stock_movements : list StockMovement.t;
  goods_receipts : list GoodsReceipt.t;
  goods_issues : list GoodsIssue.t;
  uuid_source : nat -> string;
  clock : nat -> datetime;
  tick : nat
}.

Definition set_materials (x : list Material.t) (w : world) : world :=
  mkWorld x (locations w) (current_stock w) (stock_movements w)
          (goods_receipts w) (goods_issues w) (uuid_source w) (clock w) (tick w).

Definition set_locations (x : list Location.t) (w : world) : world :=
  mkWorld (materials w) x (current_stock w) (stock_movements w)
          (goods_receipts w) (goods_issues w) (uuid_source w) (clock w) (tick w).

Definition set_current_stock (x : list CurrentStock.t) (w : world) : world :=
  mkWorld (materials w) (locations w) x (stock_movements w)
          (goods_receipts w) (goods_issues w) (uuid_source w) (clock w) (tick w).

Definition set_stock_movements (x : list StockMovement.t) (w : world) : world :=
  mkWorld (materials w) (locations w) (current_stock w) x
          (goods_receipts w) (goods_issues w) (uuid_source w) (clock w) (tick w).

Definition set_goods_receipts (x : list GoodsReceipt.t) (w : world) : world :=
  mkWorld (materials w) (locations w) (current_stock w) (stock_movements w)
          x (goods_issues w) (uuid_source w) (clock w) (tick w).

Definition set_goods_issues (x : list GoodsIssue.t) (w : world) : world :=
  mkWorld (materials w) (locations w) (current_stock w) (stock_movements w)
          (goods_receipts w) x (uuid_source w) (clock w) (tick w).

Definition set_tick (x : nat) (w : world) : world :=
  mkWorld (materials w) (locations w) (current_stock w) (stock_movements w)
          (goods_receipts w) (goods_issues w) (uuid_source w) (clock w) x.

(** The database before anything was inserted. *)
Definition empty_world (u : nat -> string) (c : nat -> datetime) : world :=
  mkWorld [] [] [] [] [] [] u c 0%nat.

(** ** Handlers as state transformers that may raise *)

(** What a handler can end with instead of a result: an [HTTPException] it
    raised itself, or the [InvalidDocument] of the driver, which names the
    value it could not encode. *)
Inductive exception : Type :=
| mkHTTPException (status_code : Z) (detail : string)
| InvalidDocument (cannot_encode : py_value).


Inductive outcome (A : Type) : Type :=
| Ok (a : A)
| Raised (e : exception).

Arguments Ok {A} a.
Arguments Raised {A} e.

Definition M (A : Type) : Type := world -> outcome A * world.

Definition ret {A : Type} (a : A) : M A := fun w => (Ok a, w).

Definition bind {A B : Type} (m : M A) (k : A -> M B) : M B :=
  fun w =>
    match m w with
    | (Ok a, w') => k a w'
    | (Raised e, w') => (Raised e, w')
    end.

Definition raise {A : Type} (e : exception) : M A :=
  fun w => (Raised e, w).

Definition gets {A : Type} (f : world -> A) : M A := fun w => (Ok (f w), w).

Definition modify (f : world -> world) : M unit := fun w => (Ok tt, f w).

Notation "x <- m ;; k" := (bind m (fun x => k))
  (at level 61, m at next level, right associativity).
Notation "m ;;; k" := (bind m (fun _ => k))
  (at level 61, right associativity).

(** [for x in l: body x] *)
Fixpoint for_each {A : Type} (body : A -> M unit) (l : list A) : M unit :=
  match l with
  | [] => ret tt
  | x :: rest => body x ;;; for_each body rest
  end.

(** [uuid.uuid4()] rendered as a string, and [datetime.utcnow()]. *)
Definition uuid4 : M string :=
  fun w => (Ok (uuid_source w (tick w)), set_tick (S (tick w)) w).

Definition utcnow : M datetime :=
  fun w => (Ok (clock w (tick w)), set_tick (S (tick w)) w).

(** ** String helpers used for document numbers *)

Definition ascii_upper (c : ascii) : ascii :=
  let n := nat_of_ascii c in
  if ((97 <=? n) && (n <=? 122))%nat then ascii_of_nat (n - 32) else c.

Fixpoint upper (s : string) : string :=
  match s with
  | EmptyString => EmptyString
  | String c rest => String (ascii_upper c) (upper rest)
  end.

(** [f"{prefix}{str(uuid.uuid4())[:8].upper()}"] *)
Definition document_number_of (prefix u : string) : string :=
  prefix ++ upper (substring 0 8 u).

(** ** Collection primitives *)

(** [collection.update_one(filter, {"$set": ...})]: the first match only. *)
Fixpoint update_one {A : Type} (p : A -> bool) (f : A -> A) (l : list A) : list A :=
  match l with
  | [] => []
  | x :: rest => if p x then f x :: rest else x :: update_one p f rest
  end.

(** [db.materials.find_one({"id": material_id})] *)
Definition materials_find_one (material_id : string) (w : world) : option Material.t :=
  find (fun m => Material.id m =? material_id)%string (materials w).

(** [db.materials.find_one({"material_code": code})] *)
Definition materials_find_one_by_code (code : string) (w : world) : option Material.t :=
  find (fun m => Material.material_code m =? code)%string (materials w).

(** [db.locations.find_one({"id": location_id})] *)
Definition locations_find_one (location_id : string) (w : world) : option Location.t :=
  find (fun l => Location.id l =? location_id)%string (locations w).

Definition stock_key (material_id location_id : string) (r : CurrentStock.t) : bool :=
  ((CurrentStock.material_id r =? material_id)
   && (CurrentStock.location_id r =? location_id))%string.

(** [db.current_stock.find_one({"material_id": ..., "location_id": ...})] *)
Definition current_stock_find_one (material_id location_id : string) (w : world)
  : option CurrentStock.t :=
  find (stock_key material_id location_id) (current_stock w).

(** [{"$set": {"current_quantity": q, "last_updated": now}}] *)
Definition set_quantity (q : Z) (now : datetime) (r : CurrentStock.t) : CurrentStock.t :=
  CurrentStock.mk (CurrentStock.id r) (CurrentStock.material_id r)
    (CurrentStock.material_code r) (CurrentStock.material_description r)
    (CurrentStock.location_id r) (CurrentStock.plant_code r)
    (CurrentStock.storage_location r) q (CurrentStock.unit_of_measure r) now.

(** [collection.insert_one(document)]: the document is encoded first; when
    a value cannot be encoded nothing is stored. *)
Definition insert_one {A : Type} (dict : A -> py_value) (store : A -> world -> world)
    (document : A) : M unit :=
  match first_unencodable (dict document) with
  | Some value => raise (InvalidDocument value)
  | None => modify (store document)
  end.

(** ** Documents, field by field *)

Definition Location_dict (d : Location.t) : py_value :=
  py_dict [("id", py_str (Location.id d));
           ("plant_code", py_str (Location.plant_code d));
           ("plant_name", py_str (Location.plant_name d));
           ("storage_location", py_str (Location.storage_location d));
           ("description", optional py_str (Location.description d));
           ("created_at", py_datetime (Location.created_at d))].

Definition Material_dict (d : Material.t) : py_value :=
  py_dict [("id", py_str (Material.id d));
           ("material_code", py_str (Material.material_code d));
           ("material_description", py_str (Material.material_description d));
           ("material_group", optional py_str (Material.material_group d));
           ("unit_of_measure", py_str (UnitOfMeasure_value (Material.unit_of_measure d)));
           ("created_at", py_datetime (Material.created_at d))].

Definition CurrentStock_dict (d : CurrentStock.t) : py_value :=
  py_dict [("id", py_str (CurrentStock.id d));
           ("material_id", py_str (CurrentStock.material_id d));
           ("material_code", py_str (CurrentStock.material_code d));
           ("material_description", py_str (CurrentStock.material_description d));
           ("location_id", py_str (CurrentStock.location_id d));
           ("plant_code", py_str (CurrentStock.plant_code d));
           ("storage_location", py_str (CurrentStock.storage_location d));
           ("current_quantity", py_float (CurrentStock.current_quantity d));
           ("unit_of_measure", py_str (CurrentStock.unit_of_measure d));
           ("last_updated", py_datetime (CurrentStock.last_updated d))].

Definition GoodsReceiptItem_dict (d : GoodsReceiptItem.t) : py_value :=
  py_dict [("material_id", py_str (GoodsReceiptItem.material_id d));
           ("material_code", py_str (GoodsReceiptItem.material_code d));
           ("quantity", py_float (GoodsReceiptItem.quantity d));
           ("unit_price", optional py_float (GoodsReceiptItem.unit_price d));
           ("total_amount", optional py_float (GoodsReceiptItem.total_amount d))].

Definition GoodsReceipt_dict (d : GoodsReceipt.t) : py_value :=
  py_dict [("id", py_str (GoodsReceipt.id d));
           ("document_number", py_str (GoodsReceipt.document_number d));
           ("po_id", optional py_str (GoodsReceipt.po_id d));
           ("po_number", optional py_str (GoodsReceipt.po_number d));
           ("invoice_id", optional py_str (GoodsReceipt.invoice_id d));
           ("vendor_code", py_str (GoodsReceipt.vendor_code d));
           ("vendor_name", py_str (GoodsReceipt.vendor_name d));
           ("location_id", py_str (GoodsReceipt.location_id d));
           ("plant_code", py_str (GoodsReceipt.plant_code d));
           ("storage_location", py_str (GoodsReceipt.storage_location d));
           ("posting_date", py_date (GoodsReceipt.posting_date d));
           ("document_date", py_date (GoodsReceipt.document_date d));
           ("items", py_list (map GoodsReceiptItem_dict (GoodsReceipt.items d)));
           ("header_text", optional py_str (GoodsReceipt.header_text d));
           ("created_at", py_datetime (GoodsReceipt.created_at d))].

Definition GoodsIssueItem_dict (d : GoodsIssueItem.t) : py_value :=
  py_dict [("material_id", py_str (GoodsIssueItem.material_id d));
           ("material_code", py_str (GoodsIssueItem.material_code d));
           ("quantity", py_float (GoodsIssueItem.quantity d));
           ("cost_center", optional py_str (GoodsIssueItem.cost_center d))].

Definition GoodsIssue_dict (d : GoodsIssue.t) : py_value :=
  py_dict [("id", py_str (GoodsIssue.id d));
           ("document_number", py_str (GoodsIssue.document_number d));
           ("movement_type", py_str (MovementType_value (GoodsIssue.movement_type d)));
           ("location_id", py_str (GoodsIssue.location_id d));
           ("plant_code", py_str (GoodsIssue.plant_code d));
           ("storage_location", py_str (GoodsIssue.storage_location d));
           ("posting_date", py_date (GoodsIssue.posting_date d));
           ("document_date", py_date (GoodsIssue.document_date d));
           ("items", py_list (map GoodsIssueItem_dict (GoodsIssue.items d)));
           ("header_text", optional py_str (GoodsIssue.header_text d));
           ("created_at", py_datetime (GoodsIssue.created_at d))].

Definition StockMovement_dict (d : StockMovement.t) : py_value :=
  py_dict [("id", py_str (StockMovement.id d));
           ("material_id", py_str (StockMovement.material_id d));
           ("material_code", py_str (StockMovement.material_code d));
           ("location_id", py_str (StockMovement.location_id d));
           ("plant_code", py_str (StockMovement.plant_code d));
           ("storage_location", py_str (StockMovement.storage_location d));
           ("movement_type", py_str (MovementType_value (StockMovement.movement_type d)));
           ("document_number", py_str (StockMovement.document_number d));
           ("quantity", py_float (StockMovement.quantity d));
           ("unit_of_measure", py_str (StockMovement.unit_of_measure d));
           ("posting_date", py_date (StockMovement.posting_date d));
           ("reference_document", optional py_str (StockMovement.reference_document d));
           ("created_at", py_datetime (StockMovement.created_at d))].

(** [db.goods_receipts.insert_one], [db.goods_issues.insert_one] and
    [db.stock_movements.insert_one].  The documents of locations, materials
    and balance rows hold strings, floats and datetimes only, so that their
    [insert_one] always stores; it is written below as the append it amounts
    to. *)
Definition goods_receipts_insert_one : GoodsReceipt.t -> M unit :=
  insert_one GoodsReceipt_dict
    (fun d w => set_goods_receipts (goods_receipts w ++ [d]) w).

Definition goods_issues_insert_one : GoodsIssue.t -> M unit :=
  insert_one GoodsIssue_dict
    (fun d w => set_goods_issues (goods_issues w ++ [d]) w).

Definition stock_movements_insert_one : StockMovement.t -> M unit :=
  insert_one StockMovement_dict
    (fun d w => set_stock_movements (stock_movements w ++ [d]) w).

(** ** update_stock *)

(** [movement_type in [GOODS_ISSUE_CONSUMPTION, GOODS_ISSUE_SALES, RETURN_TO_VENDOR]] *)
Definition is_decrease (movement_type : MovementType) : bool :=
  existsb (MovementType_eqb movement_type)
    [GOODS_ISSUE_CONSUMPTION; GOODS_ISSUE_SALES; RETURN_TO_VENDOR].

(** The local [quantity_change] of [update_stock]. *)
Definition quantity_change (quantity : Z) (movement_type : MovementType) : Z :=
  if is_decrease movement_type then - quantity else quantity.

Definition update_stock (material_id location_id : string) (quantity : Z)
    (movement_type : MovementType) (unit_of_measure : string) : M unit :=
  material <- gets (materials_find_one material_id) ;;
  location <- gets (locations_find_one location_id) ;;
  match material, location with
  | Some material, Some location =>
      stock_record <- gets (current_stock_find_one material_id location_id) ;;
      let quantity_change := quantity_change quantity movement_type in
      match stock_record with
      | Some stock_record =>
          let new_quantity := CurrentStock.current_quantity stock_record + quantity_change in
          now <- utcnow ;;
          modify (fun w =>
            set_current_stock
              (update_one
                 (fun r => CurrentStock.id r =? CurrentStock.id stock_record)%string
                 (set_quantity new_quantity now)
                 (current_stock w)) w)
      | None =>
          new_id <- uuid4 ;;
          now <- utcnow ;;
          let new_stock :=
            CurrentStock.mk new_id material_id
              (Material.material_code material)
              (Material.material_description material)
              location_id
              (Location.plant_code location)
              (Location.storage_location location)
              quantity_change unit_of_measure now in
          modify (fun w => set_current_stock (current_stock w ++ [new_stock]) w)
      end
  | _, _ => raise (mkHTTPException 404 "Material or Location not found")
  end.

(** ** Master data *)

Definition create_location (location : LocationCreate.t) : M Location.t :=
  new_id <- uuid4 ;;
  now <- utcnow ;;
  let location_obj :=
    Location.mk new_id (LocationCreate.plant_code location)
      (LocationCreate.plant_name location)
      (LocationCreate.storage_location location)
      (LocationCreate.description location) now in
  modify (fun w => set_locations (locations w ++ [location_obj]) w) ;;;
  ret location_obj.

Definition create_material (material : MaterialCreate.t) : M Material.t :=
  existing <- gets (materials_find_one_by_code (MaterialCreate.material_code material)) ;;
  match existing with
  | Some _ => raise (mkHTTPException 400 "Material code already exists")
  | None =>
      new_id <- uuid4 ;;
      now <- utcnow ;;
      let material_obj :=
        Material.mk new_id (MaterialCreate.material_code material)
          (MaterialCreate.material_description material)
          (MaterialCreate.material_group material)
          (MaterialCreate.unit_of_measure material) now in
      modify (fun w => set_materials (materials w ++ [material_obj]) w) ;;;
      ret material_obj
  end.

(** ** Goods receipts *)

(** The [StockMovement(...)] built for one receipt line. *)
Definition receipt_movement (gr : GoodsReceiptCreate.t) (gr_obj : GoodsReceipt.t)
    (location : Location.t) (material : Material.t) (item : GoodsReceiptItem.t)
    (new_id : string) (now : datetime) : StockMovement.t :=
  StockMovement.mk new_id
    (GoodsReceiptItem.material_id item)
    (GoodsReceiptItem.material_code item)
    (GoodsReceiptCreate.location_id gr)
    (Location.plant_code location)
    (Location.storage_location location)
    GOODS_RECEIPT
    (GoodsReceipt.document_number gr_obj)
    (GoodsReceiptItem.quantity item)
    (UnitOfMeasure_value (Material.unit_of_measure material))
    (GoodsReceiptCreate.posting_date gr)
    (GoodsReceiptCreate.po_number gr)
    now.

(** The body of [for item in gr_obj.items]. *)
Definition receipt_line (gr : GoodsReceiptCreate.t) (gr_obj : GoodsReceipt.t)
    (location : Location.t) (item : GoodsReceiptItem.t) : M unit :=
  material <- gets (materials_find_one (GoodsReceiptItem.material_id item)) ;;
  match material with
  | Some material =>
      update_stock (GoodsReceiptItem.material_id item)
        (GoodsReceiptCreate.location_id gr)
        (GoodsReceiptItem.quantity item)
        GOODS_RECEIPT
        (UnitOfMeasure_value (Material.unit_of_measure material)) ;;;
      new_id <- uuid4 ;;
      now <- utcnow ;;
      let movement := receipt_movement gr gr_obj location material item new_id now in
      stock_movements_insert_one movement
  | None => ret tt
  end.

(** [gr_dict = gr.dict()] completed with the location's plant code and
    storage location, then the [GoodsReceipt] built from it: [id],
    [document_number] and [created_at] come from their default factories. *)
Definition goods_receipt_of (gr : GoodsReceiptCreate.t) (location : Location.t)
    (new_id number_seed : string) (now : datetime) : GoodsReceipt.t :=
  GoodsReceipt.mk new_id (document_number_of "GR" number_seed)
    (GoodsReceiptCreate.po_id gr)
    (GoodsReceiptCreate.po_number gr)
    (GoodsReceiptCreate.invoice_id gr)
    (GoodsReceiptCreate.vendor_code gr)
    (GoodsReceiptCreate.vendor_name gr)
    (GoodsReceiptCreate.location_id gr)
    (Location.plant_code location)
    (Location.storage_location location)
    (GoodsReceiptCreate.posting_date gr)
    (GoodsReceiptCreate.document_date gr)
    (GoodsReceiptCreate.items gr)
    (GoodsReceiptCreate.header_text gr)
    now.

Definition create_goods_receipt (gr : GoodsReceiptCreate.t) : M GoodsReceipt.t :=
  location <- gets (locations_find_one (GoodsReceiptCreate.location_id gr)) ;;
  match location with
  | None => raise (mkHTTPException 404 "Location not found")
  | Some location =>
      new_id <- uuid4 ;;
      number_seed <- uuid4 ;;
      now <- utcnow ;;
      let gr_obj := goods_receipt_of gr location new_id number_seed now in
      goods_receipts_insert_one gr_obj ;;;
      for_each (receipt_line gr gr_obj location) (GoodsReceipt.items gr_obj) ;;;
      ret gr_obj
  end.

(** ** Goods issues *)

(** The [StockMovement(...)] built for one issue line; the quantity is
    negated whatever the movement type, and no reference document is set. *)
Definition issue_movement (gi : GoodsIssueCreate.t) (gi_obj : GoodsIssue.t)
    (location : Location.t) (material : Material.t) (item : GoodsIssueItem.t)
    (new_id : string) (now : datetime) : StockMovement.t :=
  StockMovement.mk new_id
    (GoodsIssueItem.material_id item)
    (GoodsIssueItem.material_code item)
    (GoodsIssueCreate.location_id gi)
    (Location.plant_code location)
    (Location.storage_location location)
    (GoodsIssueCreate.movement_type gi)
    (GoodsIssue.document_number gi_obj)
    (- GoodsIssueItem.quantity item)
    (UnitOfMeasure_value (Material.unit_of_measure material))
    (GoodsIssueCreate.posting_date gi)
    None
    now.

(** The body of [for item in gi_obj.items]. *)
Definition issue_line (gi : GoodsIssueCreate.t) (gi_obj : GoodsIssue.t)
    (location : Location.t) (item : GoodsIssueItem.t) : M unit :=
  material <- gets (materials_find_one (GoodsIssueItem.material_id item)) ;;
  match material with
  | Some material =>
      update_stock (GoodsIssueItem.material_id item)
        (GoodsIssueCreate.location_id gi)
        (GoodsIssueItem.quantity item)
        (GoodsIssueCreate.movement_type gi)
        (UnitOfMeasure_value (Material.unit_of_measure material)) ;;;
      new_id <- uuid4 ;;
      now <- utcnow ;;
      let movement := issue_movement gi gi_obj location material item new_id now in
      stock_movements_insert_one movement
  | None => ret tt
  end.

(** [gi_dict = gi.dict()] completed with the location's plant code and
    storage location, then the [GoodsIssue] built from it. *)
Definition goods_issue_of (gi : GoodsIssueCreate.t) (location : Location.t)
    (new_id number_seed : string) (now : datetime) : GoodsIssue.t :=
  GoodsIssue.mk new_id (document_number_of "GI" number_seed)
    (GoodsIssueCreate.movement_type gi)
    (GoodsIssueCreate.location_id gi)
    (Location.plant_code location)
    (Location.storage_location location)
    (GoodsIssueCreate.posting_date gi)
    (GoodsIssueCreate.document_date gi)
    (GoodsIssueCreate.items gi)
    (GoodsIssueCreate.header_text gi)
    now.

Definition create_goods_issue (gi : GoodsIssueCreate.t) : M GoodsIssue.t :=
  location <- gets (locations_find_one (GoodsIssueCreate.location_id gi)) ;;
  match location with
  | None => raise (mkHTTPException 404 "Location not found")
  | Some location =>
      new_id <- uuid4 ;;
      number_seed <- uuid4 ;;
      now <- utcnow ;;
      let gi_obj := goods_issue_of gi location new_id number_seed now in
      goods_issues_insert_one gi_obj ;;;
      for_each (issue_line gi gi_obj location) (GoodsIssue.items gi_obj) ;;;
      ret gi_obj
  end.

(** ** Observations used by the statements *)

(** The quantity shown by the balance row of a pair, when there is one. *)
Definition balance (material_id location_id : string) (w : world) : option Z :=
  option_map CurrentStock.current_quantity
    (current_stock_find_one material_id location_id w).



(** What the pair has on hand: the balance row's quantity, 0 without a row. *)
Definition on_hand (material_id location_id : string) (w : world) : Z :=
  match balance material_id location_id w with
  | Some q => q
  | None => 0
  end.

(** Balance rows carry pairwise distinct identifiers (they are drawn from
    [uuid4]). *)
Definition ids_unique (w : world) : Prop :=
  NoDup (map CurrentStock.id (current_stock w)).

(** ** The direction table of the specification *)

Inductive Direction : Type := Increase | Decrease.

(** receipt, transfer and return-from-customer increase; issue for
    consumption, issue for sales and return-to-vendor decrease. *)
Definition direction (movement_type : MovementType) : Direction :=
  match movement_type with
  | GOODS_RECEIPT | STOCK_TRANSFER | RETURN_FROM_CUSTOMER => Increase
  | GOODS_ISSUE_CONSUMPTION | GOODS_ISSUE_SALES | RETURN_TO_VENDOR => Decrease
  end.

(** [signedQuantity = rawQuantity if direction == increase else -rawQuantity] *)
Definition signed (d : Direction) (raw : Z) : Z :=
  match d with
  | Increase => raw
  | Decrease => - raw
  end.

(** ** Well-formed states *)

(** The identifiers [ids] were drawn from the source [u] before call number
    [t], no two of them by the same call, and [u] never repeats itself. *)
Definition ids_from (u : nat -> string) (t : nat) (ids : list string) : Prop :=
  (forall a b : nat, u a = u b -> a = b) /\
  (forall i, In i ids -> exists n, (n < t)%nat /\ i = u n) /\
  NoDup ids.

(** Balance rows are identified by distinct values drawn from [uuid4]. *)
Definition well_formed (w : world) : Prop :=
  ids_from (uuid_source w) (tick w) (map CurrentStock.id (current_stock w)).

(** [(m, l)] is the pair [(material_id, location_id)]. *)
Definition pair_eqb (m l material_id location_id : string) : bool :=
  ((material_id =? m) && (location_id =? l))%string.

(** Does [db.materials.find_one({"id": material_id})] return a document? *)
Definition resolves (material_id : string) (w : world) : bool :=
  match materials_find_one material_id w with
  | Some _ => true
  | None => false
  end.

(** Nothing but balance rows, ledger and call counter differs. *)
Definition same_outside_stock (w w' : world) : Prop :=
  materials w' = materials w /\
  locations w' = locations w /\
  goods_receipts w' = goods_receipts w /\
  goods_issues w' = goods_issues w /\
  uuid_source w' = uuid_source w /\
  clock w' = clock w.


(** ** Runs of the service *)

Inductive request : Type :=
| PostLocation (location : LocationCreate.t)
| PostMaterial (material : MaterialCreate.t)
| PostGoodsReceipt (gr : GoodsReceiptCreate.t)
| PostGoodsIssue (gi : GoodsIssueCreate.t).

(** The state a request leaves behind, whether it succeeds or raises. *)
Definition handle (w : world) (r : request) : world :=
  match r with
  | PostLocation location => snd (create_location location w)
  | PostMaterial material => snd (create_material material w)
  | PostGoodsReceipt gr => snd (create_goods_receipt gr w)
  | PostGoodsIssue gi => snd (create_goods_issue gi w)
  end.

Definition run (requests : list request) (w : world) : world :=
  fold_left handle requests w.

(** ** Requests that differ in their line items only *)

Definition receipt_with_items (gr : GoodsReceiptCreate.t)
    (items : list GoodsReceiptItem.t) : GoodsReceiptCreate.t :=
  GoodsReceiptCreate.mk (GoodsReceiptCreate.po_id gr) (GoodsReceiptCreate.po_number gr)
    (GoodsReceiptCreate.invoice_id gr) (GoodsReceiptCreate.vendor_code gr)
    (GoodsReceiptCreate.vendor_name gr) (GoodsReceiptCreate.location_id gr)
    (GoodsReceiptCreate.posting_date gr) (GoodsReceiptCreate.document_date gr)
    items (GoodsReceiptCreate.header_text gr).

Definition issue_with_items (gi : GoodsIssueCreate.t)
    (items : list GoodsIssueItem.t) : GoodsIssueCreate.t :=
  GoodsIssueCreate.mk (GoodsIssueCreate.movement_type gi) (GoodsIssueCreate.location_id gi)
    (GoodsIssueCreate.posting_date gi) (GoodsIssueCreate.document_date gi)
    items (GoodsIssueCreate.header_text gi).

(** ** A sample database *)

Module Sample.

(** Identifiers: ["uuid-"] followed by the binary digits of the call number,
    least significant first. *)
Fixpoint digits (p : positive) : string :=
  match p with
  | xH => "1"
  | xO p' => String "0" (digits p')
  | xI p' => String "1" (digits p')
  end.

Definition uuids (n : nat) : string := "uuid-" ++ digits (Pos.of_succ_nat n).

Definition times (n : nat) : datetime := 1000 + Z.of_nat n.

Definition start : world := empty_world uuids times.

Definition plant : LocationCreate.t :=
  LocationCreate.mk "P001" "Main Plant" "SL01" (Some "Main storage location").

Definition mat001 : MaterialCreate.t :=
  MaterialCreate.mk "MAT001" "Test Material 001" (Some "RAW_MATERIALS") PC.

Definition mat002 : MaterialCreate.t :=
  MaterialCreate.mk "MAT002" "Test Material 002" None KG.

(** One location and two materials. *)
Definition setup : list request :=
  [PostLocation plant; PostMaterial mat001; PostMaterial mat002].

Definition master : world := run setup start.

Definition L : string := uuids 0.
Definition M1 : string := uuids 2.
Definition M2 : string := uuids 4.

Definition receipt_of (location_id material_id : string) (q : Z) : GoodsReceiptCreate.t :=
  GoodsReceiptCreate.mk None (Some "PO001") None "V001" "Test Vendor" location_id
    (mkDate 2024 1 15) (mkDate 2024 1 15)
    [GoodsReceiptItem.mk material_id "MAT001" q None None] None.

Definition issue_of (mt : MovementType) (location_id material_id : string) (q : Z)
  : GoodsIssueCreate.t :=
  GoodsIssueCreate.mk mt location_id (mkDate 2024 1 16) (mkDate 2024 1 16)
    [GoodsIssueItem.mk material_id "MAT001" q (Some "CC001")] None.

(** Balance rows as [update_stock] writes them: 100 received, then 30
    issued for consumption, 70 on hand. *)
Definition after_receipt : world :=
  snd (update_stock M1 L 100 GOODS_RECEIPT "PC" master).

Definition after_issue : world :=
  snd (update_stock M1 L 30 GOODS_ISSUE_CONSUMPTION "PC" after_receipt).

(** A second balance row, for the other material. *)
Definition two_rows : world :=
  snd (update_stock M2 L 40 GOODS_RECEIPT "KG" after_issue).

End Sample.

(** ** Read routes

    [collection.find().to_list(1000)] hands back at most the first 1000
    documents of the cursor; the response models are rebuilt field by field
    from the stored documents. *)

Definition to_list {A : Type} (length : nat) (cursor : list A) : list A :=
  firstn length cursor.

Definition get_locations : M (list Location.t) :=
  gets (fun w => to_list 1000 (locations w)).

Definition get_materials : M (list Material.t) :=
  gets (fun w => to_list 1000 (materials w)).

Definition get_goods_receipts : M (list GoodsReceipt.t) :=
  gets (fun w => to_list 1000 (goods_receipts w)).

Definition get_goods_issues : M (list GoodsIssue.t) :=
  gets (fun w => to_list 1000 (goods_issues w)).


(** ** How a state can follow another *)

(** [l'] is [l] with documents appended. *)
Definition extends {A : Type} (l l' : list A) : Prop :=
  exists added, l' = (l ++ added)%list.

(** The pair a balance row is kept for. *)
Definition row_key (r : CurrentStock.t) : string * string :=
  (CurrentStock.material_id r, CurrentStock.location_id r).

(** Everything in a balance row but its quantity and its time stamp. *)
Definition descriptive_fields (r : CurrentStock.t)
  : string * string * string * string * string * string * string * string :=
  (CurrentStock.id r, CurrentStock.material_id r, CurrentStock.material_code r,
   CurrentStock.material_description r, CurrentStock.location_id r,
   CurrentStock.plant_code r, CurrentStock.storage_location r,
   CurrentStock.unit_of_measure r).

(** At most one balance row per pair. *)
Definition one_row_per_pair (w : world) : Prop :=
  NoDup (map row_key (current_stock w)).

(** [w'] keeps the history of [w]: same oracles, a call counter that did
    not go back, every collection grown at its end only, balance rows
    possibly with other quantities. *)
Definition evolves (w w' : world) : Prop :=
  uuid_source w' = uuid_source w /\
  clock w' = clock w /\
  (tick w <= tick w')%nat /\
  extends (materials w) (materials w') /\
  extends (locations w) (locations w') /\
  extends (goods_receipts w) (goods_receipts w') /\
  extends (goods_issues w) (goods_issues w') /\
  extends (stock_movements w) (stock_movements w') /\
  extends (map descriptive_fields (current_stock w))
          (map descriptive_fields (current_stock w')) /\
  (one_row_per_pair w -> one_row_per_pair w').

(** ** Identifiers across the database *)

(** The [id] of every stored document, collection after collection. *)
Definition all_ids (w : world) : list string :=
  (map Material.id (materials w)
   ++ map Location.id (locations w)
   ++ map GoodsReceipt.id (goods_receipts w)
   ++ map GoodsIssue.id (goods_issues w)
   ++ map CurrentStock.id (current_stock w)
   ++ map StockMovement.id (stock_movements w))%list.

(** Every stored identifier was drawn from [uuid4] by an earlier call, no
    two by the same call, and [uuid4] never repeats itself. *)
Definition ids_fresh (w : world) : Prop :=
  ids_from (uuid_source w) (tick w) (all_ids w).

(** ** Movement history

    [db.stock_movements.find().sort("created_at", -1).to_list(1000)]: the
    entries ordered newest first, the first 1000 of them.  MongoDB does not
    fix the order among entries with equal [created_at]; the model has to
    pick one and keeps them in insertion order, and what is stated about the
    listing below holds for any other choice as well. *)

Fixpoint insert_newest_first (e : StockMovement.t) (sorted : list StockMovement.t)
  : list StockMovement.t :=
  match sorted with
  | [] => [e]
  | y :: rest =>
      if StockMovement.created_at e <? StockMovement.created_at y
      then y :: insert_newest_first e rest
      else e :: y :: rest
  end.

Definition sort_created_at_desc (l : list StockMovement.t) : list StockMovement.t :=
  fold_right insert_newest_first [] l.

Definition get_stock_movements : M (list StockMovement.t) :=
  gets (fun w => to_list 1000 (sort_created_at_desc (stock_movements w))).

(** [b] is not newer than [a]. *)
Definition not_newer (a b : StockMovement.t) : Prop :=
  StockMovement.created_at b <= StockMovement.created_at a.

(** ** Purchase orders, invoices and the dashboard

    The remaining collections sit beside the ones above; their routes draw
    identifiers and time stamps from the same [uuid4] and [utcnow]. *)

Inductive InvoiceStatus : Type := PENDING | VERIFIED | BLOCKED | POSTED.

Definition InvoiceStatus_value (s : InvoiceStatus) : string :=
  match s with
  | PENDING => "pending"
  | VERIFIED => "verified"
  | BLOCKED => "blocked"
  | POSTED => "posted"
  end.

Module PurchaseOrder.
Record t : Type := mk {
  id : string;
  po_number : string;
  vendor_code : string;
  vendor_name : string;
  po_date : date;
  created_at : datetime
}.
End PurchaseOrder.

Module PurchaseOrderCreate.
Record t : Type := mk {
  po_number : string;
  vendor_code : string;
  vendor_name : string;
  po_date : date
}.
End PurchaseOrderCreate.

Module Invoice.
Record t : Type := mk {
  id : string;
  invoice_number : string;
  vendor_code : string;
  vendor_name : string;
  invoice_date : date;
  invoice_amount : Z;
  status : InvoiceStatus;
  file_path : option string;
  created_at : datetime
}.
End Invoice.

Module InvoiceCreate.
Record t : Type := mk {
  invoice_number : string;
  vendor_code : string;
  vendor_name : string;
  invoice_date : date;
  invoice_amount : Z
}.
End InvoiceCreate.

Record server : Type := mkServer {
  core : world;
  purchase_orders : list PurchaseOrder.t;
  invoices : list Invoice.t
}.

Definition set_core (x : world) (s : server) : server :=
  mkServer x (purchase_orders s) (invoices s).

Definition set_purchase_orders (x : list PurchaseOrder.t) (s : server) : server :=
  mkServer (core s) x (invoices s).

Definition set_invoices (x : list Invoice.t) (s : server) : server :=
  mkServer (core s) (purchase_orders s) x.

Definition empty_server (u : nat -> string) (c : nat -> datetime) : server :=
  mkServer (empty_world u c) [] [].

Definition R (A : Type) : Type := server -> outcome A * server.

(** A route of the stock collections, run on the whole database. *)
Definition lift {A : Type} (m : M A) : R A :=
  fun s => let (r, w') := m (core s) in (r, set_core w' s).

Definition route_ret {A : Type} (a : A) : R A := fun s => (Ok a, s).

Definition route_bind {A B : Type} (m : R A) (k : A -> R B) : R B :=
  fun s =>
    match m s with
    | (Ok a, s') => k a s'
    | (Raised e, s') => (Raised e, s')
    end.

Definition route_raise {A : Type} (e : exception) : R A :=
  fun s => (Raised e, s).

Notation "x <~ m ;; k" := (route_bind m (fun x => k))
  (at level 61, m at next level, right associativity).

Definition PurchaseOrder_dict (d : PurchaseOrder.t) : py_value :=
  py_dict [("id", py_str (PurchaseOrder.id d));
           ("po_number", py_str (PurchaseOrder.po_number d));
           ("vendor_code", py_str (PurchaseOrder.vendor_code d));
           ("vendor_name", py_str (PurchaseOrder.vendor_name d));
           ("po_date", py_date (PurchaseOrder.po_date d));
           ("created_at", py_datetime (PurchaseOrder.created_at d))].

Definition Invoice_dict (d : Invoice.t) : py_value :=
  py_dict [("id", py_str (Invoice.id d));
           ("invoice_number", py_str (Invoice.invoice_number d));
           ("vendor_code", py_str (Invoice.vendor_code d));
           ("vendor_name", py_str (Invoice.vendor_name d));
           ("invoice_date", py_date (Invoice.invoice_date d));
           ("invoice_amount", py_float (Invoice.invoice_amount d));
           ("status", py_str (InvoiceStatus_value (Invoice.status d)));
           ("file_path", optional py_str (Invoice.file_path d));
           ("created_at", py_datetime (Invoice.created_at d))].

(** [insert_one] on a collection kept beside the stock collections. *)
Definition route_insert_one {A : Type} (dict : A -> py_value)
    (store : A -> server -> server) (document : A) : R unit :=
  match first_unencodable (dict document) with
  | Some value => route_raise (InvalidDocument value)
  | None => fun s => (Ok tt, store document s)
  end.

Definition create_purchase_order (po : PurchaseOrderCreate.t) : R PurchaseOrder.t :=
  new_id <~ lift uuid4 ;;
  now <~ lift utcnow ;;
  let po_obj :=
    PurchaseOrder.mk new_id (PurchaseOrderCreate.po_number po)
      (PurchaseOrderCreate.vendor_code po) (PurchaseOrderCreate.vendor_name po)
      (PurchaseOrderCreate.po_date po) now in
  _ <~ route_insert_one PurchaseOrder_dict
         (fun d s => set_purchase_orders (purchase_orders s ++ [d]) s) po_obj ;;
  route_ret po_obj.

Definition get_purchase_orders : R (list PurchaseOrder.t) :=
  fun s => (Ok (to_list 1000 (purchase_orders s)), s).

(** [status] and [file_path] take their defaults, pending and [None]. *)
Definition create_invoice (invoice : InvoiceCreate.t) : R Invoice.t :=
  new_id <~ lift uuid4 ;;
  now <~ lift utcnow ;;
  let invoice_obj :=
    Invoice.mk new_id (InvoiceCreate.invoice_number invoice)
      (InvoiceCreate.vendor_code invoice) (InvoiceCreate.vendor_name invoice)
      (InvoiceCreate.invoice_date invoice) (InvoiceCreate.invoice_amount invoice)
      PENDING None now in
  _ <~ route_insert_one Invoice_dict
         (fun d s => set_invoices (invoices s ++ [d]) s) invoice_obj ;;
  route_ret invoice_obj.

Definition get_invoices : R (list Invoice.t) :=
  fun s => (Ok (to_list 1000 (invoices s)), s).

(** [{"$set": {"status": status}}] *)
Definition set_status (status : InvoiceStatus) (i : Invoice.t) : Invoice.t :=
  Invoice.mk (Invoice.id i) (Invoice.invoice_number i) (Invoice.vendor_code i)
    (Invoice.vendor_name i) (Invoice.invoice_date i) (Invoice.invoice_amount i)
    status (Invoice.file_path i) (Invoice.created_at i).

(** [result.matched_count] of an [update_one]: 1 when a document matches the
    filter, 0 otherwise. *)
Definition matched_count {A : Type} (p : A -> bool) (l : list A) : nat :=
  if existsb p l then 1%nat else 0%nat.

(** The update is sent first; the 404 is decided from its [matched_count]. *)
Definition update_invoice_status (invoice_id : string) (status : InvoiceStatus)
  : R string :=
  fun s =>
    let by_id := fun i => (Invoice.id i =? invoice_id)%string in
    let matched := matched_count by_id (invoices s) in
    let s' := set_invoices (update_one by_id (set_status status) (invoices s)) s in
    if (matched =? 0)%nat
    then (Raised (mkHTTPException 404 "Invoice not found"), s')
    else (Ok "Status updated successfully", s').

Record DashboardStats : Type := mkDashboardStats {
  total_materials : nat;
  total_locations : nat;
  pending_invoices : nat;
  total_receipts : nat;
  total_issues : nat
}.

(** [count_documents({"status": "pending"})] *)
Definition is_pending (i : Invoice.t) : bool :=
  (InvoiceStatus_value (Invoice.status i) =? "pending")%string.

Definition get_dashboard_stats : R DashboardStats :=
  fun s =>
    (Ok (mkDashboardStats
           (List.length (materials (core s)))
           (List.length (locations (core s)))
           (List.length (filter is_pending (invoices s)))
           (List.length (goods_receipts (core s)))
           (List.length (goods_issues (core s)))),
     s).

(** A request of the stock collections, served on the whole database. *)
Definition serve (s : server) (r : request) : server :=
  set_core (handle (core s) r) s.

Definition is_ok {A : Type} (o : outcome A) : bool :=
  match o with
  | Ok _ => true
  | Raised _ => false
  end.

(** Did the route answer the request with something other than an error? *)
Definition answered (w : world) (r : request) : bool :=
  match r with
  | PostLocation location => is_ok (fst (create_location location w))
  | PostMaterial material => is_ok (fst (create_material material w))
  | PostGoodsReceipt gr => is_ok (fst (create_goods_receipt gr w))
  | PostGoodsIssue gi => is_ok (fst (create_goods_issue gi w))
  end.


(** A sample office: the sample stock with two invoices on file, as a
    database holds them that was filled by other means than
    [create_invoice]. *)
Module Office.

(** The identifier of the first invoice. *)
Definition first_id : string := uuid_source Sample.two_rows (tick Sample.two_rows).

Definition two_invoices : server :=
  mkServer Sample.two_rows []
    [Invoice.mk first_id "INV001" "V001" "Test Vendor" (mkDate 2024 1 10) 1000
       PENDING None 2000;
     Invoice.mk "inv-2" "INV002" "V002" "Other Vendor" (mkDate 2024 1 11) 250
       PENDING None 2001].

End Office.

(** * Properties *)

(** ** The sign table *)

Lemma quantity_change_signed (q : Z) (mt : MovementType) :
  quantity_change q mt = signed (direction mt) q.
Proof. destruct mt; reflexivity. Qed.

(** ** Collections *)

Lemma update_one_map_id {A B : Type} (key : A -> B) (p : A -> bool) (f : A -> A)
    (l : list A) :
  (forall x, key (f x) = key x) ->
  map key (update_one p f l) = map key l.
Proof.
  intros Hf. induction l as [|x rest IH]; simpl; [reflexivity|].
  destruct (p x); simpl; [rewrite Hf|rewrite IH]; reflexivity.
Qed.

(** With distinct identifiers, updating by the identifier of the row that
    [find_one] returned rewrites that very row and nothing else. *)
Lemma update_one_found (key : CurrentStock.t -> bool) (f : CurrentStock.t -> CurrentStock.t)
    (l : list CurrentStock.t) (sr : CurrentStock.t) :
  NoDup (map CurrentStock.id l) ->
  find key l = Some sr ->
  exists before after,
    l = (before ++ sr :: after)%list /\
    forallb (fun r => negb (key r)) before = true /\
    update_one (fun r => CurrentStock.id r =? CurrentStock.id sr)%string f l
      = (before ++ f sr :: after)%list.
Proof.
  induction l as [|x rest IH]; simpl; intros Hnd Hfind; [discriminate|].
  inversion Hnd as [|? ? Hnotin Hnd']; subst.
  destruct (key x) eqn:Hk.
  - injection Hfind as ->. exists [], rest. simpl.
    rewrite String.eqb_refl. repeat split; reflexivity.
  - destruct (IH Hnd' Hfind) as (before & after & Hl & Hall & Hupd).
    exists (x :: before), after. simpl. rewrite Hk. simpl.
    repeat split.
    + now rewrite Hl.
    + exact Hall.
    + destruct (String.eqb_spec (CurrentStock.id x) (CurrentStock.id sr)) as [Heq|_].
      * exfalso. apply Hnotin. rewrite Heq, Hl, map_app. simpl.
        apply in_or_app. right. now left.
      * now rewrite Hupd.
Qed.

Lemma find_skip_prefix {A : Type} (key : A -> bool) (before after : list A) (x : A) :
  forallb (fun r => negb (key r)) before = true ->
  key x = true ->
  find key (before ++ x :: after)%list = Some x.
Proof.
  induction before as [|y rest IH]; simpl; intros Hall Hx.
  - now rewrite Hx.
  - apply andb_true_iff in Hall as [Hy Hall].
    apply negb_true_iff in Hy. rewrite Hy. now apply IH.
Qed.

Lemma find_app_none {A : Type} (key : A -> bool) (l : list A) (x : A) :
  find key l = None ->
  find key (l ++ [x])%list = if key x then Some x else None.
Proof.
  induction l as [|y rest IH]; simpl; intros H; [reflexivity|].
  destruct (key y); [discriminate|now apply IH].
Qed.

Lemma stock_key_set_quantity (mid lid : string) (q : Z) (now : datetime) (r : CurrentStock.t) :
  stock_key mid lid (set_quantity q now r) = stock_key mid lid r.
Proof. reflexivity. Qed.

(** ** update_stock, case by case *)

Lemma update_stock_existing mid lid q mt uom w mat loc sr :
  materials_find_one mid w = Some mat ->
  locations_find_one lid w = Some loc ->
  current_stock_find_one mid lid w = Some sr ->
  update_stock mid lid q mt uom w =
    (Ok tt,
     set_current_stock
       (update_one (fun r => CurrentStock.id r =? CurrentStock.id sr)%string
          (set_quantity (CurrentStock.current_quantity sr + quantity_change q mt)
             (clock w (tick w)))
          (current_stock w))
       (set_tick (S (tick w)) w)).
Proof.
  intros Hm Hl Hs. unfold update_stock, bind, gets.
  rewrite Hm, Hl, Hs. reflexivity.
Qed.

Lemma update_stock_absent mid lid q mt uom w mat loc :
  materials_find_one mid w = Some mat ->
  locations_find_one lid w = Some loc ->
  current_stock_find_one mid lid w = None ->
  update_stock mid lid q mt uom w =
    (Ok tt,
     set_current_stock
       (current_stock w ++
          [CurrentStock.mk (uuid_source w (tick w)) mid
             (Material.material_code mat) (Material.material_description mat)
             lid (Location.plant_code loc) (Location.storage_location loc)
             (quantity_change q mt) uom (clock w (S (tick w)))])
       (set_tick (S (S (tick w))) w)).
Proof.
  intros Hm Hl Hs. unfold update_stock, bind, gets.
  rewrite Hm, Hl, Hs. reflexivity.
Qed.

Lemma update_stock_unresolved mid lid q mt uom w :
  materials_find_one mid w = None \/ locations_find_one lid w = None ->
  update_stock mid lid q mt uom w =
    (Raised (mkHTTPException 404 "Material or Location not found"), w).
Proof.
  intros H. unfold update_stock, bind, gets.
  destruct (materials_find_one mid w), (locations_find_one lid w), H;
    try discriminate; reflexivity.
Qed.

Lemma update_stock_existing_rows mid lid q mt uom w mat loc sr :
  materials_find_one mid w = Some mat ->
  locations_find_one lid w = Some loc ->
  current_stock_find_one mid lid w = Some sr ->
  ids_unique w ->
  exists before after,
    current_stock w = (before ++ sr :: after)%list /\
    forallb (fun r => negb (stock_key mid lid r)) before = true /\
    current_stock (snd (update_stock mid lid q mt uom w)) =
      (before ++
       set_quantity (CurrentStock.current_quantity sr + quantity_change q mt)
         (clock w (tick w)) sr :: after)%list.
Proof.
  intros Hm Hl Hs Hu.
  rewrite (update_stock_existing _ _ _ _ _ _ _ _ _ Hm Hl Hs). simpl.
  exact (update_one_found _ _ _ _ Hu Hs).
Qed.

Lemma stock_key_found mid lid l sr :
  find (stock_key mid lid) l = Some sr -> stock_key mid lid sr = true.
Proof. intros H. now apply find_some in H. Qed.

Lemma update_stock_balance mid lid q mt uom w mat loc :
  materials_find_one mid w = Some mat ->
  locations_find_one lid w = Some loc ->
  ids_unique w ->
  update_stock mid lid q mt uom w
    = (Ok tt, snd (update_stock mid lid q mt uom w)) /\
  balance mid lid (snd (update_stock mid lid q mt uom w))
    = Some (on_hand mid lid w + quantity_change q mt).
Proof.
  intros Hm Hl Hu. unfold on_hand, balance.
  destruct (current_stock_find_one mid lid w) as [sr|] eqn:Hs.
  - destruct (update_stock_existing_rows mid lid q mt uom w mat loc sr Hm Hl Hs Hu)
      as (before & after & _ & Hall & Hcs).
    split.
    + now rewrite (update_stock_existing _ _ _ _ _ _ _ _ _ Hm Hl Hs).
    + unfold current_stock_find_one. rewrite Hcs.
      rewrite (find_skip_prefix _ _ _ _ Hall).
      * reflexivity.
      * rewrite stock_key_set_quantity. exact (stock_key_found _ _ _ _ Hs).
  - rewrite (update_stock_absent _ _ _ _ _ _ _ _ Hm Hl Hs). simpl. split; [reflexivity|].
    unfold current_stock_find_one. simpl.
    rewrite (find_app_none _ _ _ Hs). unfold stock_key. simpl.
    now rewrite !String.eqb_refl.
Qed.

(** ** What the driver can store *)

Lemma GoodsReceipt_dict_unencodable (d : GoodsReceipt.t) :
  first_unencodable (GoodsReceipt_dict d)
    = Some (py_date (GoodsReceipt.posting_date d)).
Proof.
  destruct d as [i n po_id po_number invoice_id vc vn l pc sl pd dd items h c].
  destruct po_id, po_number, invoice_id; reflexivity.
Qed.

Lemma GoodsIssue_dict_unencodable (d : GoodsIssue.t) :
  first_unencodable (GoodsIssue_dict d)
    = Some (py_date (GoodsIssue.posting_date d)).
Proof. reflexivity. Qed.

Lemma StockMovement_dict_unencodable (d : StockMovement.t) :
  first_unencodable (StockMovement_dict d)
    = Some (py_date (StockMovement.posting_date d)).
Proof. reflexivity. Qed.

Lemma PurchaseOrder_dict_unencodable (d : PurchaseOrder.t) :
  first_unencodable (PurchaseOrder_dict d)
    = Some (py_date (PurchaseOrder.po_date d)).
Proof. reflexivity. Qed.

Lemma Invoice_dict_unencodable (d : Invoice.t) :
  first_unencodable (Invoice_dict d)
    = Some (py_date (Invoice.invoice_date d)).
Proof. reflexivity. Qed.

(** Locations, materials and balance rows are always stored. *)
Lemma master_data_encodable :
  (forall d, first_unencodable (Location_dict d) = None) /\
  (forall d, first_unencodable (Material_dict d) = None) /\
  (forall d, first_unencodable (CurrentStock_dict d) = None).
Proof.
  split; [|split]; intros d.
  - destruct d as [i pc pn sl description c]. destruct description; reflexivity.
  - destruct d as [i mc md material_group u c]. destruct material_group; reflexivity.
  - reflexivity.
Qed.

(** ** Claims about update_stock *)

(** C3. For a resolved material and location, [update_stock] succeeds and
    the delta it applies is the raw quantity signed by the direction of the
    movement type: [+quantity] for goods receipt, stock transfer and return
    from customer, [-quantity] for issue for consumption, issue for sales and
    return to vendor.  The balance row then shows what the pair had on hand
    plus that delta, and with a positive raw quantity the delta is positive
    exactly for the increasing types and negative for the decreasing ones. *)
Theorem update_stock_delta_follows_direction
    (mid lid : string) (q : Z) (mt : MovementType) (uom : string) (w : world)
    (mat : Material.t) (loc : Location.t) :
  0 < q ->
  materials_find_one mid w = Some mat ->
  locations_find_one lid w = Some loc ->
  ids_unique w ->
  let w' := snd (update_stock mid lid q mt uom w) in
  fst (update_stock mid lid q mt uom w) = Ok tt /\
  quantity_change q mt =
    match mt with
    | GOODS_RECEIPT | STOCK_TRANSFER | RETURN_FROM_CUSTOMER => q
    | GOODS_ISSUE_CONSUMPTION | GOODS_ISSUE_SALES | RETURN_TO_VENDOR => - q
    end /\
  balance mid lid w' = Some (on_hand mid lid w + signed (direction mt) q) /\
  (direction mt = Increase -> 0 < quantity_change q mt) /\
  (direction mt = Decrease -> quantity_change q mt < 0).
Proof.
  intros Hq Hm Hl Hu w'.
  destruct (update_stock_balance mid lid q mt uom w mat loc Hm Hl Hu) as [Hok Hbal].
  fold w' in Hok, Hbal.
  rewrite quantity_change_signed in Hbal.
  repeat split.
  - now rewrite Hok.
  - destruct mt; reflexivity.
  - exact Hbal.
  - intros Hd. rewrite quantity_change_signed, Hd. exact Hq.
  - intros Hd. rewrite quantity_change_signed, Hd. simpl. lia.
Qed.

Lemma update_stock_delta_follows_direction_witness :
  fst (update_stock Sample.M1 Sample.L 30 GOODS_ISSUE_SALES "PC" Sample.after_receipt)
    = Ok tt /\
  balance Sample.M1 Sample.L
    (snd (update_stock Sample.M1 Sample.L 30 GOODS_ISSUE_SALES "PC" Sample.after_receipt))
    = Some (100 + - 30).
Proof.
  edestruct (update_stock_delta_follows_direction
               Sample.M1 Sample.L 30 GOODS_ISSUE_SALES "PC" Sample.after_receipt)
    as (Hok & _ & Hbal & _).
  - lia.
  - vm_compute; reflexivity.
  - vm_compute; reflexivity.
  - unfold ids_unique. vm_compute. repeat constructor. intros [].
  - split; [exact Hok | exact Hbal].
Defined.

(** C7. [update_stock] enforces no lower bound: with a balance row showing
    [existing] and a decreasing movement of [q], the call succeeds and the
    row shows [existing - q], negative or not. *)
Theorem update_stock_no_lower_bound
    (mid lid : string) (q existing : Z) (mt : MovementType) (uom : string)
    (w : world) (mat : Material.t) (loc : Location.t) :
  materials_find_one mid w = Some mat ->
  locations_find_one lid w = Some loc ->
  ids_unique w ->
  balance mid lid w = Some existing ->
  direction mt = Decrease ->
  fst (update_stock mid lid q mt uom w) = Ok tt /\
  balance mid lid (snd (update_stock mid lid q mt uom w)) = Some (existing - q).
Proof.
  intros Hm Hl Hu He Hd.
  destruct (update_stock_balance mid lid q mt uom w mat loc Hm Hl Hu) as [Hok Hbal].
  split.
  - now rewrite Hok.
  - rewrite Hbal, quantity_change_signed, Hd. unfold on_hand. rewrite He.
    reflexivity.
Qed.

(** Issuing 200 against a balance of 70 succeeds and leaves -130. *)
Lemma update_stock_no_lower_bound_witness :
  balance Sample.M1 Sample.L Sample.after_issue = Some 70 /\
  fst (update_stock Sample.M1 Sample.L 200 GOODS_ISSUE_CONSUMPTION "PC"
         Sample.after_issue) = Ok tt /\
  balance Sample.M1 Sample.L
    (snd (update_stock Sample.M1 Sample.L 200 GOODS_ISSUE_CONSUMPTION "PC"
            Sample.after_issue)) = Some (-130).
Proof.
  split; [reflexivity|].
  eapply (update_stock_no_lower_bound
            Sample.M1 Sample.L 200 70 GOODS_ISSUE_CONSUMPTION "PC" Sample.after_issue).
  - reflexivity.
  - reflexivity.
  - unfold ids_unique. vm_compute. repeat constructor. intros [].
  - reflexivity.
  - reflexivity.
Defined.

(** C8. For a pair without a balance row, [update_stock] appends exactly one
    row; it shows the signed delta of this application, and its descriptive
    fields are copied from the resolved material and location. *)
Theorem update_stock_first_touch
    (mid lid : string) (q : Z) (mt : MovementType) (uom : string) (w : world)
    (mat : Material.t) (loc : Location.t) :
  materials_find_one mid w = Some mat ->
  locations_find_one lid w = Some loc ->
  current_stock_find_one mid lid w = None ->
  let w' := snd (update_stock mid lid q mt uom w) in
  fst (update_stock mid lid q mt uom w) = Ok tt /\
  balance mid lid w' = Some (signed (direction mt) q) /\
  exists row,
    current_stock w' = (current_stock w ++ [row])%list /\
    CurrentStock.material_id row = mid /\
    CurrentStock.location_id row = lid /\
    CurrentStock.current_quantity row = signed (direction mt) q /\
    CurrentStock.material_code row = Material.material_code mat /\
    CurrentStock.material_description row = Material.material_description mat /\
    CurrentStock.plant_code row = Location.plant_code loc /\
    CurrentStock.storage_location row = Location.storage_location loc /\
    CurrentStock.unit_of_measure row = uom.
Proof.
  intros Hm Hl Hs w'. subst w'.
  rewrite (update_stock_absent _ _ _ _ _ _ _ _ Hm Hl Hs). simpl.
  rewrite quantity_change_signed.
  split; [reflexivity|]. split.
  - unfold balance, current_stock_find_one. simpl.
    rewrite (find_app_none _ _ _ Hs). unfold stock_key. simpl.
    now rewrite !String.eqb_refl.
  - eexists. split; [reflexivity|]. simpl. repeat split; reflexivity.
Qed.

(** A first receipt of 25 creates the row with quantity exactly 25. *)
Lemma update_stock_first_touch_witness :
  current_stock Sample.master = [] /\
  map (fun r => (CurrentStock.current_quantity r,
                 CurrentStock.material_description r,
                 CurrentStock.plant_code r,
                 CurrentStock.storage_location r))
      (current_stock
         (snd (update_stock Sample.M1 Sample.L 25 GOODS_RECEIPT "PC" Sample.master)))
    = [(25, "Test Material 001", "P001", "SL01")].
Proof.
  split; [reflexivity|].
  edestruct (update_stock_first_touch
               Sample.M1 Sample.L 25 GOODS_RECEIPT "PC" Sample.master)
    as (_ & _ & row & Hcs & _ & _ & Hq & _ & Hd & Hp & Hsl & _).
  - reflexivity.
  - reflexivity.
  - reflexivity.
  - rewrite Hcs. simpl. rewrite Hq, Hd, Hp, Hsl. reflexivity.
Defined.

(** C9. On an existing balance row, [update_stock] rewrites that row only,
    and of that row only [current_quantity] (existing quantity plus the
    signed delta) and [last_updated]; the rows before and after it and all
    its other fields stay as they were. *)
Theorem update_stock_existing_row_frame
    (mid lid : string) (q : Z) (mt : MovementType) (uom : string) (w : world)
    (mat : Material.t) (loc : Location.t) (sr : CurrentStock.t) :
  materials_find_one mid w = Some mat ->
  locations_find_one lid w = Some loc ->
  current_stock_find_one mid lid w = Some sr ->
  ids_unique w ->
  let w' := snd (update_stock mid lid q mt uom w) in
  fst (update_stock mid lid q mt uom w) = Ok tt /\
  exists before after sr',
    current_stock w = (before ++ sr :: after)%list /\
    current_stock w' = (before ++ sr' :: after)%list /\
    CurrentStock.current_quantity sr'
      = CurrentStock.current_quantity sr + signed (direction mt) q /\
    CurrentStock.last_updated sr' = clock w (tick w) /\
    CurrentStock.id sr' = CurrentStock.id sr /\
    CurrentStock.material_id sr' = CurrentStock.material_id sr /\
    CurrentStock.material_code sr' = CurrentStock.material_code sr /\
    CurrentStock.material_description sr' = CurrentStock.material_description sr /\
    CurrentStock.location_id sr' = CurrentStock.location_id sr /\
    CurrentStock.plant_code sr' = CurrentStock.plant_code sr /\
    CurrentStock.storage_location sr' = CurrentStock.storage_location sr /\
    CurrentStock.unit_of_measure sr' = CurrentStock.unit_of_measure sr.
Proof.
  intros Hm Hl Hs Hu w'. subst w'.
  destruct (update_stock_existing_rows mid lid q mt uom w mat loc sr Hm Hl Hs Hu)
    as (before & after & Hcs & _ & Hcs').
  split.
  - now rewrite (update_stock_existing _ _ _ _ _ _ _ _ _ Hm Hl Hs).
  - exists before, after. eexists. split; [exact Hcs|]. split; [exact Hcs'|].
    simpl. rewrite quantity_change_signed. repeat split; reflexivity.
Qed.

(** With two balance rows, an issue of 15 on the second one rewrites its
    quantity from 40 to 25, in place. *)
Lemma update_stock_existing_row_frame_witness :
  map CurrentStock.current_quantity (current_stock Sample.two_rows) = [70; 40] /\
  fst (update_stock Sample.M2 Sample.L 15 GOODS_ISSUE_CONSUMPTION "KG" Sample.two_rows)
    = Ok tt /\
  exists sr before after sr',
    current_stock_find_one Sample.M2 Sample.L Sample.two_rows = Some sr /\
    current_stock Sample.two_rows = (before ++ sr :: after)%list /\
    current_stock
      (snd (update_stock Sample.M2 Sample.L 15 GOODS_ISSUE_CONSUMPTION "KG"
              Sample.two_rows))
      = (before ++ sr' :: after)%list /\
    CurrentStock.current_quantity sr' = 40 + - 15 /\
    CurrentStock.material_description sr' = CurrentStock.material_description sr.
Proof.
  split; [vm_compute; reflexivity|].
  edestruct (update_stock_existing_row_frame
               Sample.M2 Sample.L 15 GOODS_ISSUE_CONSUMPTION "KG" Sample.two_rows)
    as (Hok & before & after & sr' & Hcs & Hcs' & Hq & _ & _ & _ & _ & Hd & _).
  - vm_compute; reflexivity.
  - vm_compute; reflexivity.
  - vm_compute; reflexivity.
  - unfold ids_unique. vm_compute. repeat constructor.
    + intros [H|[]]. discriminate H.
    + intros [].
  - split; [exact Hok|].
    eexists. exists before, after, sr'.
    split; [vm_compute; reflexivity|].
    split; [exact Hcs|]. split; [exact Hcs'|]. split; [exact Hq | exact Hd].
Defined.

(** ** Well-formedness *)

Lemma well_formed_ids_unique (w : world) : well_formed w -> ids_unique w.
Proof. intros (_ & _ & H). exact H. Qed.

Lemma ids_from_later u t t' ids :
  (t <= t')%nat -> ids_from u t ids -> ids_from u t' ids.
Proof.
  intros Hle (Hinj & Hdrawn & Hnd). repeat split; trivial.
  intros i Hi. destruct (Hdrawn i Hi) as (n & Hn & ->). exists n. split; [lia|reflexivity].
Qed.

Lemma ids_from_draw u t ids :
  ids_from u t ids -> ids_from u (S t) (ids ++ [u t])%list.
Proof.
  intros (Hinj & Hdrawn & Hnd). repeat split; trivial.
  - intros i Hi. apply in_app_or in Hi as [Hi|[<-|[]]].
    + destruct (Hdrawn i Hi) as (n & Hn & ->). exists n. split; [lia|reflexivity].
    + exists t. split; [lia|reflexivity].
  - apply NoDup_app; [exact Hnd|repeat constructor; intros []|].
    intros i Hi [<-|[]].
    destruct (Hdrawn _ Hi) as (n & Hn & Heq). apply Hinj in Heq. lia.
Qed.

Lemma set_quantity_id q now r : CurrentStock.id (set_quantity q now r) = CurrentStock.id r.
Proof. reflexivity. Qed.

Lemma same_outside_stock_refl w : same_outside_stock w w.
Proof. repeat split. Qed.

(** ** update_stock on every pair *)

Lemma find_app {A : Type} (key : A -> bool) (l1 l2 : list A) :
  find key (l1 ++ l2)%list =
    match find key l1 with
    | Some x => Some x
    | None => find key l2
    end.
Proof.
  induction l1 as [|y rest IH]; simpl; [reflexivity|].
  destruct (key y); [reflexivity|exact IH].
Qed.

Lemma find_replace_other {A : Type} (key : A -> bool) (before after : list A) (x y : A) :
  key x = false -> key y = false ->
  find key (before ++ x :: after)%list = find key (before ++ y :: after)%list.
Proof.
  intros Hx Hy. rewrite !find_app. simpl. now rewrite Hx, Hy.
Qed.

Lemma stock_key_other m l mid lid r :
  stock_key mid lid r = true ->
  stock_key m l r = pair_eqb m l mid lid.
Proof.
  unfold stock_key, pair_eqb. intros H.
  apply andb_true_iff in H as [Hm Hl].
  apply String.eqb_eq in Hm, Hl. now subst.
Qed.

Lemma pair_eqb_true m l mid lid :
  pair_eqb m l mid lid = true -> m = mid /\ l = lid.
Proof.
  unfold pair_eqb. intros H. apply andb_true_iff in H as [Hm Hl].
  apply String.eqb_eq in Hm, Hl. now subst.
Qed.

Lemma update_stock_effect mid lid q mt uom w mat loc :
  materials_find_one mid w = Some mat ->
  locations_find_one lid w = Some loc ->
  well_formed w ->
  exists w',
    update_stock mid lid q mt uom w = (Ok tt, w') /\
    well_formed w' /\
    same_outside_stock w w' /\
    stock_movements w' = stock_movements w /\
    forall m l,
      on_hand m l w' =
      on_hand m l w + (if pair_eqb m l mid lid then quantity_change q mt else 0).
Proof.
  intros Hm Hl Hwf.
  pose proof (well_formed_ids_unique _ Hwf) as Hu.
  destruct (update_stock_balance mid lid q mt uom w mat loc Hm Hl Hu) as [Hok Hbal].
  exists (snd (update_stock mid lid q mt uom w)).
  split; [exact Hok|].
  destruct (current_stock_find_one mid lid w) as [sr|] eqn:Hs.
  - destruct (update_stock_existing_rows mid lid q mt uom w mat loc sr Hm Hl Hs Hu)
      as (before & after & Hcs & Hall & Hcs').
    pose proof (update_stock_existing _ _ q mt uom _ _ _ _ Hm Hl Hs) as Heq.
    split; [|split; [|split]].
    + rewrite Heq. unfold well_formed. simpl.
      rewrite update_one_map_id by apply set_quantity_id.
      apply ids_from_later with (t := tick w); [lia|exact Hwf].
    + rewrite Heq. repeat split.
    + rewrite Heq. reflexivity.
    + intros m l. destruct (pair_eqb m l mid lid) eqn:Hp.
      * apply pair_eqb_true in Hp as [-> ->]. unfold on_hand at 1. now rewrite Hbal.
      * rewrite Z.add_0_r. unfold on_hand, balance, current_stock_find_one.
        rewrite Hcs', Hcs.
        pose proof (stock_key_found _ _ _ _ Hs) as Hk.
        rewrite (find_replace_other (stock_key m l) before after _ sr); [reflexivity| |].
        -- rewrite stock_key_set_quantity, (stock_key_other _ _ _ _ _ Hk). exact Hp.
        -- rewrite (stock_key_other _ _ _ _ _ Hk). exact Hp.
  - pose proof (update_stock_absent _ _ q mt uom _ _ _ Hm Hl Hs) as Heq.
    split; [|split; [|split]].
    + rewrite Heq. unfold well_formed. simpl. rewrite map_app. simpl.
      apply ids_from_later with (t := S (tick w)); [lia|].
      apply ids_from_draw. exact Hwf.
    + rewrite Heq. repeat split.
    + rewrite Heq. reflexivity.
    + intros m l. destruct (pair_eqb m l mid lid) eqn:Hp.
      * apply pair_eqb_true in Hp as [-> ->]. unfold on_hand at 1. now rewrite Hbal.
      * rewrite Z.add_0_r. rewrite Heq. unfold on_hand, balance, current_stock_find_one.
        simpl. rewrite find_app. simpl.
        match goal with
        | |- context [stock_key m l ?r] =>
            change (stock_key m l r) with (pair_eqb m l mid lid)
        end.
        rewrite Hp.
        now destruct (find (stock_key m l) (current_stock w)).
Qed.

(** Split the conjunctions that are written out in the goal, and no
    definition that unfolds to one. *)
Ltac conjuncts :=
  repeat match goal with
         | |- _ /\ _ => split
         end.

(** ** The two postings, unfolded once

    The header document carries [posting_date], a [date]: its [insert_one]
    raises before anything is stored, and the loop over the lines is never
    reached. *)

Lemma create_goods_receipt_unknown gr w :
  locations_find_one (GoodsReceiptCreate.location_id gr) w = None ->
  create_goods_receipt gr w = (Raised (mkHTTPException 404 "Location not found"), w).
Proof. intros Hl. unfold create_goods_receipt, bind, gets. now rewrite Hl. Qed.

Lemma create_goods_issue_unknown gi w :
  locations_find_one (GoodsIssueCreate.location_id gi) w = None ->
  create_goods_issue gi w = (Raised (mkHTTPException 404 "Location not found"), w).
Proof. intros Hl. unfold create_goods_issue, bind, gets. now rewrite Hl. Qed.

Lemma create_goods_receipt_run gr w loc :
  locations_find_one (GoodsReceiptCreate.location_id gr) w = Some loc ->
  create_goods_receipt gr w =
    (Raised (InvalidDocument (py_date (GoodsReceiptCreate.posting_date gr))),
     set_tick (S (S (S (tick w)))) w).
Proof.
  intros Hl.
  unfold create_goods_receipt, bind, gets, uuid4, utcnow, goods_receipts_insert_one,
    insert_one.
  rewrite Hl. cbv beta iota zeta.
  rewrite GoodsReceipt_dict_unencodable. reflexivity.
Qed.

Lemma create_goods_issue_run gi w loc :
  locations_find_one (GoodsIssueCreate.location_id gi) w = Some loc ->
  create_goods_issue gi w =
    (Raised (InvalidDocument (py_date (GoodsIssueCreate.posting_date gi))),
     set_tick (S (S (S (tick w)))) w).
Proof.
  intros Hl.
  unfold create_goods_issue, bind, gets, uuid4, utcnow, goods_issues_insert_one,
    insert_one.
  rewrite Hl. cbv beta iota zeta.
  rewrite GoodsIssue_dict_unencodable. reflexivity.
Qed.

(** A posting ends in one of two ways, and in neither with a result. *)
Lemma create_goods_receipt_cases gr w :
  create_goods_receipt gr w = (Raised (mkHTTPException 404 "Location not found"), w) \/
  create_goods_receipt gr w =
    (Raised (InvalidDocument (py_date (GoodsReceiptCreate.posting_date gr))),
     set_tick (S (S (S (tick w)))) w).
Proof.
  destruct (locations_find_one (GoodsReceiptCreate.location_id gr) w) as [loc|] eqn:Hl.
  - right. exact (create_goods_receipt_run gr w loc Hl).
  - left. exact (create_goods_receipt_unknown gr w Hl).
Qed.

Lemma create_goods_issue_cases gi w :
  create_goods_issue gi w = (Raised (mkHTTPException 404 "Location not found"), w) \/
  create_goods_issue gi w =
    (Raised (InvalidDocument (py_date (GoodsIssueCreate.posting_date gi))),
     set_tick (S (S (S (tick w)))) w).
Proof.
  destruct (locations_find_one (GoodsIssueCreate.location_id gi) w) as [loc|] eqn:Hl.
  - right. exact (create_goods_issue_run gi w loc Hl).
  - left. exact (create_goods_issue_unknown gi w Hl).
Qed.

(** The state a posting leaves behind differs from the one it found in the
    call counter at most. *)
Lemma posting_state w r :
  match r with
  | PostGoodsReceipt _ | PostGoodsIssue _ =>
      handle w r = w \/ handle w r = set_tick (S (S (S (tick w)))) w
  | _ => True
  end.
Proof.
  destruct r as [location|material|gr|gi]; simpl; trivial.
  - destruct (create_goods_receipt_cases gr w) as [-> | ->]; [now left | now right].
  - destruct (create_goods_issue_cases gi w) as [-> | ->]; [now left | now right].
Qed.

(** ** Claims about the postings *)

(** C6. When the document's location does not resolve, a goods receipt and
    a goods issue alike raise 404 "Location not found" and leave the whole
    state as it was: no document stored, no ledger entry, no balance row
    created or changed. *)
Theorem posting_unknown_location_aborts
    (gr : GoodsReceiptCreate.t) (gi : GoodsIssueCreate.t) (w : world) :
  locations_find_one (GoodsReceiptCreate.location_id gr) w = None ->
  locations_find_one (GoodsIssueCreate.location_id gi) w = None ->
  create_goods_receipt gr w = (Raised (mkHTTPException 404 "Location not found"), w) /\
  create_goods_issue gi w = (Raised (mkHTTPException 404 "Location not found"), w).
Proof.
  intros Hr Hi. split.
  - unfold create_goods_receipt, bind, gets. now rewrite Hr.
  - unfold create_goods_issue, bind, gets. now rewrite Hi.
Qed.

Lemma posting_unknown_location_aborts_witness :
  create_goods_receipt (Sample.receipt_of "nowhere" Sample.M1 100) Sample.after_issue
    = (Raised (mkHTTPException 404 "Location not found"), Sample.after_issue) /\
  create_goods_issue (Sample.issue_of GOODS_ISSUE_SALES "nowhere" Sample.M1 5)
      Sample.after_issue
    = (Raised (mkHTTPException 404 "Location not found"), Sample.after_issue).
Proof.
  apply posting_unknown_location_aborts; vm_compute; reflexivity.
Defined.

(** C10. A goods receipt or goods issue without line items, sent with a
    location that resolves, does not succeed: storing the header document
    raises [InvalidDocument] on its [posting_date], no document is stored and
    none is returned.  The ledger and the balance rows are what they were.
    Nothing examines the item list on the way. *)
Theorem posting_without_items_raises
    (gr : GoodsReceiptCreate.t) (gi : GoodsIssueCreate.t) (w : world)
    (loc_r loc_i : Location.t) :
  locations_find_one (GoodsReceiptCreate.location_id gr) w = Some loc_r ->
  GoodsReceiptCreate.items gr = [] ->
  locations_find_one (GoodsIssueCreate.location_id gi) w = Some loc_i ->
  GoodsIssueCreate.items gi = [] ->
  (exists w',
     create_goods_receipt gr w
       = (Raised (InvalidDocument (py_date (GoodsReceiptCreate.posting_date gr))), w') /\
     goods_receipts w' = goods_receipts w /\
     stock_movements w' = stock_movements w /\
     current_stock w' = current_stock w) /\
  (exists w',
     create_goods_issue gi w
       = (Raised (InvalidDocument (py_date (GoodsIssueCreate.posting_date gi))), w') /\
     goods_issues w' = goods_issues w /\
     stock_movements w' = stock_movements w /\
     current_stock w' = current_stock w).
Proof.
  intros Hr _ Hi _. split.
  - rewrite (create_goods_receipt_run gr w loc_r Hr).
    eexists. split; [reflexivity|]. repeat split.
  - rewrite (create_goods_issue_run gi w loc_i Hi).
    eexists. split; [reflexivity|]. repeat split.
Qed.

Lemma posting_without_items_raises_witness :
  (exists w',
     create_goods_receipt (receipt_with_items (Sample.receipt_of Sample.L Sample.M1 0) [])
       Sample.master
       = (Raised (InvalidDocument (py_date (mkDate 2024 1 15))), w') /\
     goods_receipts w' = []) /\
  (exists w',
     create_goods_issue
       (issue_with_items (Sample.issue_of GOODS_ISSUE_SALES Sample.L Sample.M1 0) [])
       Sample.master
       = (Raised (InvalidDocument (py_date (mkDate 2024 1 16))), w') /\
     goods_issues w' = []).
Proof.
  edestruct (posting_without_items_raises
               (receipt_with_items (Sample.receipt_of Sample.L Sample.M1 0) [])
               (issue_with_items (Sample.issue_of GOODS_ISSUE_SALES Sample.L Sample.M1 0) [])
               Sample.master)
    as [(w1 & H1 & H2 & _) (w2 & K1 & K2 & _)].
  - vm_compute; reflexivity.
  - reflexivity.
  - vm_compute; reflexivity.
  - reflexivity.
  - split.
    + exists w1. split; [exact H1|]. rewrite H2. reflexivity.
    + exists w2. split; [exact K1|]. rewrite K2. reflexivity.
Defined.

(** C5. A document with a line whose material does not resolve, sent with a
    location that resolves, is not posted: storing the header document
    raises [InvalidDocument] before the loop over the lines starts.  The
    unresolved line indeed leaves no ledger entry and no balance change, but
    neither does any other line, and the call does not return a document.
    The outcome is the one of the same document without that line. *)
Theorem posting_with_unresolved_line_raises
    (gr : GoodsReceiptCreate.t) (gi : GoodsIssueCreate.t) (w : world)
    (loc_r loc_i : Location.t)
    (before_r after_r : list GoodsReceiptItem.t) (line_r : GoodsReceiptItem.t)
    (before_i after_i : list GoodsIssueItem.t) (line_i : GoodsIssueItem.t) :
  locations_find_one (GoodsReceiptCreate.location_id gr) w = Some loc_r ->
  GoodsReceiptCreate.items gr = (before_r ++ line_r :: after_r)%list ->
  materials_find_one (GoodsReceiptItem.material_id line_r) w = None ->
  locations_find_one (GoodsIssueCreate.location_id gi) w = Some loc_i ->
  GoodsIssueCreate.items gi = (before_i ++ line_i :: after_i)%list ->
  materials_find_one (GoodsIssueItem.material_id line_i) w = None ->
  (exists w',
     create_goods_receipt gr w
       = (Raised (InvalidDocument (py_date (GoodsReceiptCreate.posting_date gr))), w') /\
     is_ok (fst (create_goods_receipt gr w)) = false /\
     goods_receipts w' = goods_receipts w /\
     stock_movements w' = stock_movements w /\
     current_stock w' = current_stock w /\
     create_goods_receipt (receipt_with_items gr (before_r ++ after_r)) w
       = create_goods_receipt gr w) /\
  (exists w',
     create_goods_issue gi w
       = (Raised (InvalidDocument (py_date (GoodsIssueCreate.posting_date gi))), w') /\
     is_ok (fst (create_goods_issue gi w)) = false /\
     goods_issues w' = goods_issues w /\
     stock_movements w' = stock_movements w /\
     current_stock w' = current_stock w /\
     create_goods_issue (issue_with_items gi (before_i ++ after_i)) w
       = create_goods_issue gi w).
Proof.
  intros Hr _ _ Hi _ _. split.
  - rewrite (create_goods_receipt_run (receipt_with_items gr (before_r ++ after_r)) w loc_r Hr).
    rewrite (create_goods_receipt_run gr w loc_r Hr).
    eexists. split; [reflexivity|]. repeat split.
  - rewrite (create_goods_issue_run (issue_with_items gi (before_i ++ after_i)) w loc_i Hi).
    rewrite (create_goods_issue_run gi w loc_i Hi).
    eexists. split; [reflexivity|]. repeat split.
Qed.

(** On the sample stock (70 of the first material, 40 of the second): a
    receipt with a line for an unknown material followed by a line of 5 for
    the second material, and an issue with a line of 4 followed by a line for
    an unknown material.  Both raise, and the balances stay at 40 and 70. *)
Lemma posting_with_unresolved_line_raises_witness :
  let gr := receipt_with_items (Sample.receipt_of Sample.L Sample.M1 0)
              ([] ++ GoodsReceiptItem.mk "ghost" "MAT999" 7 None None
                  :: [GoodsReceiptItem.mk Sample.M2 "MAT002" 5 None None]) in
  let gi := issue_with_items (Sample.issue_of GOODS_ISSUE_CONSUMPTION Sample.L Sample.M1 0)
              ([GoodsIssueItem.mk Sample.M1 "MAT001" 4 None]
                 ++ GoodsIssueItem.mk "ghost" "MAT999" 9 None :: []) in
  (exists w',
     create_goods_receipt gr Sample.two_rows
       = (Raised (InvalidDocument (py_date (mkDate 2024 1 15))), w') /\
     balance Sample.M2 Sample.L w' = Some 40 /\
     stock_movements w' = []) /\
  (exists w',
     create_goods_issue gi Sample.two_rows
       = (Raised (InvalidDocument (py_date (mkDate 2024 1 16))), w') /\
     balance Sample.M1 Sample.L w' = Some 70 /\
     stock_movements w' = []).
Proof.
  intros gr gi.
  edestruct (posting_with_unresolved_line_raises gr gi Sample.two_rows)
    as [(w1 & H1 & _ & _ & H3 & H4 & _) (w2 & K1 & _ & _ & K3 & K4 & _)].
  - vm_compute; reflexivity.
  - reflexivity.
  - vm_compute; reflexivity.
  - vm_compute; reflexivity.
  - reflexivity.
  - vm_compute; reflexivity.
  - split.
    + exists w1. split; [exact H1|]. unfold balance, current_stock_find_one.
      rewrite H3, H4. split; vm_compute; reflexivity.
    + exists w2. split; [exact K1|]. unfold balance, current_stock_find_one.
      rewrite K3, K4. split; vm_compute; reflexivity.
Defined.




(** ** The ledger invariant *)








(** C2. A goods issue with movement type return from customer or stock
    transfer, sent with a location and a material that resolve, records no
    ledger entry at all: the header insert raises [InvalidDocument] and the
    ledger stays empty; a goods receipt fares the same.  The code that would
    write the entry could not store it either (a [StockMovement] carries a
    [date]), and the entry it builds for an issue line has the negated
    quantity whatever the movement type, where [update_stock] takes the
    quantity of these two types as it is. *)
Theorem increasing_issue_records_no_entry :
  (forall mt,
     create_goods_issue (Sample.issue_of mt Sample.L Sample.M1 5) Sample.master
       = (Raised (InvalidDocument (py_date (mkDate 2024 1 16))),
          set_tick (S (S (S (tick Sample.master)))) Sample.master) /\
     stock_movements
       (snd (create_goods_issue (Sample.issue_of mt Sample.L Sample.M1 5) Sample.master))
       = []) /\
  (create_goods_receipt (Sample.receipt_of Sample.L Sample.M1 5) Sample.master
     = (Raised (InvalidDocument (py_date (mkDate 2024 1 15))),
        set_tick (S (S (S (tick Sample.master)))) Sample.master) /\
   stock_movements
     (snd (create_goods_receipt (Sample.receipt_of Sample.L Sample.M1 5) Sample.master))
     = []) /\
  (forall e w, exists bad,
     stock_movements_insert_one e w = (Raised (InvalidDocument bad), w)) /\
  (forall gi doc loc mat item i t,
     StockMovement.quantity (issue_movement gi doc loc mat item i t)
       = - GoodsIssueItem.quantity item) /\
  quantity_change 5 RETURN_FROM_CUSTOMER = 5 /\
  quantity_change 5 STOCK_TRANSFER = 5.
Proof.
  assert (Hl : locations_find_one Sample.L Sample.master
               = Some (Location.mk Sample.L "P001" "Main Plant" "SL01"
                         (Some "Main storage location") 1001))
    by (vm_compute; reflexivity).
  split; [|split; [|split; [|split; [|split]]]].
  - intros mt.
    rewrite (create_goods_issue_run (Sample.issue_of mt Sample.L Sample.M1 5)
               Sample.master _ Hl).
    split; reflexivity.
  - rewrite (create_goods_receipt_run (Sample.receipt_of Sample.L Sample.M1 5)
               Sample.master _ Hl).
    split; reflexivity.
  - intros e w. eexists. unfold stock_movements_insert_one, insert_one.
    rewrite StockMovement_dict_unencodable. reflexivity.
  - reflexivity.
  - reflexivity.
  - reflexivity.
Qed.

(** The identifiers of the sample run never repeat. *)
Lemma sample_digits_nonempty p : Sample.digits p <> EmptyString.
Proof. destruct p; discriminate. Qed.

Lemma sample_digits_injective p q : Sample.digits p = Sample.digits q -> p = q.
Proof.
  revert q. induction p as [p IH|p IH|]; intros [q|q|] H; simpl in H;
    try discriminate; try reflexivity.
  - injection H as H. now rewrite (IH q H).
  - injection H as H. now apply sample_digits_nonempty in H.
  - injection H as H. now rewrite (IH q H).
  - injection H as H. symmetry in H. now apply sample_digits_nonempty in H.
Qed.

Lemma sample_uuids_injective a b : Sample.uuids a = Sample.uuids b -> a = b.
Proof.
  unfold Sample.uuids. simpl. intros H. injection H as H.
  apply sample_digits_injective in H. now apply SuccNat2Pos.inj.
Qed.

(** * More of the service *)

(** ** Every request keeps the history *)

Lemma extends_refl {A : Type} (l : list A) : extends l l.
Proof. exists []. now rewrite app_nil_r. Qed.

Lemma extends_trans {A : Type} (l1 l2 l3 : list A) :
  extends l1 l2 -> extends l2 l3 -> extends l1 l3.
Proof.
  intros [a ->] [b ->]. exists (a ++ b)%list. now rewrite app_assoc.
Qed.

Lemma extends_one {A : Type} (l : list A) (x : A) : extends l (l ++ [x]).
Proof. now exists [x]. Qed.

Lemma evolves_refl w : evolves w w.
Proof.
  unfold evolves. conjuncts; try reflexivity; try apply extends_refl; try lia; tauto.
Qed.

Lemma evolves_trans w1 w2 w3 : evolves w1 w2 -> evolves w2 w3 -> evolves w1 w3.
Proof.
  intros (A1 & A2 & A3 & A4 & A5 & A6 & A7 & A8 & A9 & A10)
         (B1 & B2 & B3 & B4 & B5 & B6 & B7 & B8 & B9 & B10).
  unfold evolves. conjuncts; try congruence; try lia;
    try (eapply extends_trans; eassumption).
  tauto.
Qed.

(** Solves [evolves w w'] when [w'] is written out over [w] and differs by
    appended documents and a later call counter. *)
Ltac evolves_by_appending :=
  unfold evolves, one_row_per_pair; simpl; conjuncts;
  try reflexivity; try lia; try apply extends_refl; try apply extends_one;
  try tauto.



Lemma create_goods_receipt_evolves gr w :
  evolves w (snd (create_goods_receipt gr w)).
Proof.
  destruct (create_goods_receipt_cases gr w) as [-> | ->]; simpl;
    [apply evolves_refl | evolves_by_appending].
Qed.

Lemma create_goods_issue_evolves gi w :
  evolves w (snd (create_goods_issue gi w)).
Proof.
  destruct (create_goods_issue_cases gi w) as [-> | ->]; simpl;
    [apply evolves_refl | evolves_by_appending].
Qed.

Lemma create_location_evolves location w :
  evolves w (snd (create_location location w)).
Proof. unfold create_location, bind. cbn. evolves_by_appending. Qed.

Lemma create_material_evolves material w :
  evolves w (snd (create_material material w)).
Proof.
  unfold create_material, bind, gets.
  destruct (materials_find_one_by_code _ w); cbn; [apply evolves_refl|].
  evolves_by_appending.
Qed.

Lemma handle_evolves w r : evolves w (handle w r).
Proof.
  destruct r; simpl.
  - apply create_location_evolves.
  - apply create_material_evolves.
  - apply create_goods_receipt_evolves.
  - apply create_goods_issue_evolves.
Qed.

Lemma run_evolves requests w : evolves w (run requests w).
Proof.
  revert w. induction requests as [|r rest IH]; intros w; simpl.
  - apply evolves_refl.
  - exact (evolves_trans _ _ _ (handle_evolves w r) (IH _)).
Qed.

(** ** Postings and the driver *)

(** X1. A posting whose location resolves cannot be stored.  The header
    document is built (two calls of [uuid4] and one of [utcnow]), its
    [insert_one] raises [InvalidDocument] on the [posting_date], and the
    handler ends there, whatever the lines: every collection is as it was,
    only the three calls are spent. *)
Theorem posting_with_known_location_raises
    (gr : GoodsReceiptCreate.t) (gi : GoodsIssueCreate.t) (w : world)
    (loc_r loc_i : Location.t) :
  locations_find_one (GoodsReceiptCreate.location_id gr) w = Some loc_r ->
  locations_find_one (GoodsIssueCreate.location_id gi) w = Some loc_i ->
  (exists w',
     create_goods_receipt gr w
       = (Raised (InvalidDocument (py_date (GoodsReceiptCreate.posting_date gr))), w') /\
     goods_receipts w' = goods_receipts w /\
     goods_issues w' = goods_issues w /\
     stock_movements w' = stock_movements w /\
     current_stock w' = current_stock w /\
     materials w' = materials w /\
     locations w' = locations w /\
     tick w' = (3 + tick w)%nat) /\
  (exists w',
     create_goods_issue gi w
       = (Raised (InvalidDocument (py_date (GoodsIssueCreate.posting_date gi))), w') /\
     goods_receipts w' = goods_receipts w /\
     goods_issues w' = goods_issues w /\
     stock_movements w' = stock_movements w /\
     current_stock w' = current_stock w /\
     materials w' = materials w /\
     locations w' = locations w /\
     tick w' = (3 + tick w)%nat).
Proof.
  intros Hr Hi. split.
  - rewrite (create_goods_receipt_run gr w loc_r Hr).
    eexists. split; [reflexivity|]. repeat split.
  - rewrite (create_goods_issue_run gi w loc_i Hi).
    eexists. split; [reflexivity|]. repeat split.
Qed.

Lemma posting_with_known_location_raises_witness :
  (exists w',
     create_goods_receipt (Sample.receipt_of Sample.L Sample.M1 100) Sample.two_rows
       = (Raised (InvalidDocument (py_date (mkDate 2024 1 15))), w') /\
     goods_receipts w' = [] /\
     stock_movements w' = []) /\
  (exists w',
     create_goods_issue (Sample.issue_of RETURN_TO_VENDOR Sample.L Sample.M2 3)
       Sample.two_rows
       = (Raised (InvalidDocument (py_date (mkDate 2024 1 16))), w') /\
     goods_issues w' = [] /\
     stock_movements w' = []).
Proof.
  edestruct (posting_with_known_location_raises
               (Sample.receipt_of Sample.L Sample.M1 100)
               (Sample.issue_of RETURN_TO_VENDOR Sample.L Sample.M2 3)
               Sample.two_rows)
    as [(w1 & H1 & H2 & _ & H4 & _) (w2 & K1 & _ & K3 & K4 & _)].
  - vm_compute; reflexivity.
  - vm_compute; reflexivity.
  - split.
    + exists w1. split; [exact H1|]. rewrite H2, H4. split; vm_compute; reflexivity.
    + exists w2. split; [exact K1|]. rewrite K3, K4. split; vm_compute; reflexivity.
Defined.

(** ** Balance rows *)




(** X3. No request deletes or rewrites what is stored: after any run, from
    any state, materials, locations, both document collections and the
    ledger are the old lists with documents appended; the balance rows are
    the old rows, in place and with their identifier and descriptive fields
    as they were, followed by new rows; and the call counter did not go
    back. *)
Theorem collections_only_grow (requests : list request) (w : world) :
  let w' := run requests w in
  extends (materials w) (materials w') /\
  extends (locations w) (locations w') /\
  extends (goods_receipts w) (goods_receipts w') /\
  extends (goods_issues w) (goods_issues w') /\
  extends (stock_movements w) (stock_movements w') /\
  extends (map descriptive_fields (current_stock w))
          (map descriptive_fields (current_stock w')) /\
  (tick w <= tick w')%nat.
Proof.
  intros w'.
  destruct (run_evolves requests w) as (_ & _ & Ht & Hm & Hl & Hr & Hi & Hs & Hc & _).
  conjuncts; assumption.
Qed.

(** ** Identifiers *)

Lemma Add_after_prefix {A : Type} (x : A) (p l l' : list A) :
  Add x l l' -> Add x (p ++ l) (p ++ l').
Proof.
  intros H. induction p as [|y p IH]; simpl; [exact H|]. now apply Add_cons.
Qed.

Lemma Add_at_end {A : Type} (x : A) (l rest : list A) :
  Add x (l ++ rest) ((l ++ [x]) ++ rest).
Proof.
  rewrite <- app_assoc. simpl. apply Add_after_prefix, Add_head.
Qed.

Lemma Add_last {A : Type} (x : A) (l : list A) : Add x l (l ++ [x]).
Proof.
  rewrite <- (app_nil_r l) at 1. apply Add_after_prefix, Add_head.
Qed.

Lemma ids_from_add u t t' n ids ids' :
  ids_from u t ids ->
  (t <= n)%nat -> (n < t')%nat ->
  Add (u n) ids ids' ->
  ids_from u t' ids'.
Proof.
  intros (Hinj & Hdrawn & Hnd) Hn Ht' Hadd. repeat split.
  - exact Hinj.
  - intros i Hi. apply (Add_in Hadd) in Hi as [<-|Hi].
    + exists n. split; [lia|reflexivity].
    + destruct (Hdrawn i Hi) as (k & Hk & ->). exists k. split; [lia|reflexivity].
  - apply (NoDup_Add Hadd). split; [exact Hnd|].
    intros Hin. destruct (Hdrawn _ Hin) as (k & Hk & Heq). apply Hinj in Heq. lia.
Qed.

(** Finds where the new identifier sits among [all_ids]. *)
Ltac locate_new_id :=
  unfold all_ids; simpl; rewrite ?map_app; simpl;
  repeat first [ apply Add_at_end
               | apply Add_last
               | apply Add_after_prefix ].

Lemma update_stock_ids_fresh mid lid q mt uom w :
  ids_fresh w -> ids_fresh (snd (update_stock mid lid q mt uom w)).
Proof.
  intros Hf.
  destruct (materials_find_one mid w) as [mat|] eqn:Hm;
    [|rewrite update_stock_unresolved by (now left); exact Hf].
  destruct (locations_find_one lid w) as [loc|] eqn:Hl;
    [|rewrite update_stock_unresolved by (now right); exact Hf].
  destruct (current_stock_find_one mid lid w) as [sr|] eqn:Hs.
  - rewrite (update_stock_existing _ _ q mt uom _ _ _ _ Hm Hl Hs).
    unfold ids_fresh, all_ids. simpl.
    rewrite update_one_map_id by reflexivity.
    apply ids_from_later with (t := tick w); [lia|exact Hf].
  - rewrite (update_stock_absent _ _ q mt uom _ _ _ Hm Hl Hs).
    unfold ids_fresh. simpl.
    apply (ids_from_add _ (tick w) _ (tick w) (all_ids w)); [exact Hf|lia|lia|].
    locate_new_id.
Qed.

Lemma tick_only_ids_fresh w n :
  (tick w <= n)%nat -> ids_fresh w -> ids_fresh (set_tick n w).
Proof.
  intros Hn Hf. unfold ids_fresh.
  change (all_ids (set_tick n w)) with (all_ids w). simpl.
  apply ids_from_later with (t := tick w); assumption.
Qed.

Lemma create_goods_receipt_ids_fresh gr w :
  ids_fresh w -> ids_fresh (snd (create_goods_receipt gr w)).
Proof.
  intros Hf. destruct (create_goods_receipt_cases gr w) as [-> | ->]; simpl;
    [exact Hf | apply tick_only_ids_fresh; [lia | exact Hf]].
Qed.

Lemma create_goods_issue_ids_fresh gi w :
  ids_fresh w -> ids_fresh (snd (create_goods_issue gi w)).
Proof.
  intros Hf. destruct (create_goods_issue_cases gi w) as [-> | ->]; simpl;
    [exact Hf | apply tick_only_ids_fresh; [lia | exact Hf]].
Qed.

Lemma create_location_ids_fresh location w :
  ids_fresh w -> ids_fresh (snd (create_location location w)).
Proof.
  intros Hf. unfold create_location, bind. cbn. unfold ids_fresh. simpl.
  apply (ids_from_add _ (tick w) _ (tick w) (all_ids w)); [exact Hf|lia|lia|].
  locate_new_id.
Qed.

Lemma create_material_ids_fresh material w :
  ids_fresh w -> ids_fresh (snd (create_material material w)).
Proof.
  intros Hf. unfold create_material, bind, gets.
  destruct (materials_find_one_by_code _ w); cbn; [exact Hf|].
  unfold ids_fresh. simpl.
  apply (ids_from_add _ (tick w) _ (tick w) (all_ids w)); [exact Hf|lia|lia|].
  locate_new_id.
Qed.

Lemma handle_ids_fresh w r : ids_fresh w -> ids_fresh (handle w r).
Proof.
  intros Hf. destruct r; simpl.
  - now apply create_location_ids_fresh.
  - now apply create_material_ids_fresh.
  - now apply create_goods_receipt_ids_fresh.
  - now apply create_goods_issue_ids_fresh.
Qed.

Lemma run_ids_fresh requests w : ids_fresh w -> ids_fresh (run requests w).
Proof.
  revert w. induction requests as [|r rest IH]; intros w Hf; simpl; [exact Hf|].
  apply IH, handle_ids_fresh, Hf.
Qed.

Lemma empty_world_ids_fresh u c :
  (forall a b : nat, u a = u b -> a = b) -> ids_fresh (empty_world u c).
Proof.
  intros Hinj. repeat split; simpl.
  - exact Hinj.
  - intros i [].
  - constructor.
Qed.

(** X7. When [uuid4] never repeats a value, every document stored by a
    run from the empty database has an identifier of its own: no two
    documents, of the same or of different collections, share an [id]. *)
Theorem identifiers_unique_across_database
    (u : nat -> string) (c : nat -> datetime) (requests : list request) :
  (forall a b : nat, u a = u b -> a = b) ->
  let w := run requests (empty_world u c) in
  NoDup (all_ids w) /\
  NoDup (map Material.id (materials w)) /\
  NoDup (map Location.id (locations w)) /\
  NoDup (map CurrentStock.id (current_stock w)) /\
  NoDup (map StockMovement.id (stock_movements w)).
Proof.
  intros Hinj w.
  assert (Hnd : NoDup (all_ids w)).
  { apply (run_ids_fresh requests (empty_world u c)).
    apply empty_world_ids_fresh, Hinj. }
  split; [exact Hnd|]. unfold all_ids in Hnd.
  split; [exact (NoDup_app_remove_r _ _ Hnd)|].
  apply NoDup_app_remove_l in Hnd.
  split; [exact (NoDup_app_remove_r _ _ Hnd)|].
  do 3 apply NoDup_app_remove_l in Hnd.
  split; [exact (NoDup_app_remove_r _ _ Hnd) | exact (NoDup_app_remove_l _ _ Hnd)].
Qed.

Lemma identifiers_unique_across_database_witness :
  NoDup (all_ids
           (run (Sample.setup ++
                 [PostGoodsReceipt (Sample.receipt_of Sample.L Sample.M1 100);
                  PostGoodsIssue
                    (Sample.issue_of GOODS_ISSUE_CONSUMPTION Sample.L Sample.M1 30);
                  PostGoodsReceipt (Sample.receipt_of Sample.L Sample.M2 40)])
                (empty_world Sample.uuids Sample.times))).
Proof.
  apply (identifiers_unique_across_database Sample.uuids Sample.times).
  exact sample_uuids_injective.
Defined.

Lemma next_id_is_new w n :
  ids_fresh w -> (tick w <= n)%nat -> ~ In (uuid_source w n) (all_ids w).
Proof.
  intros (Hinj & Hdrawn & _) Hn Hin.
  destruct (Hdrawn _ Hin) as (k & Hk & Heq). apply Hinj in Heq. lia.
Qed.

Lemma find_none_by_id {A : Type} (key : A -> string) (i : string) (l : list A) :
  ~ In i (map key l) -> find (fun x => key x =? i)%string l = None.
Proof.
  intros Hnotin. induction l as [|x rest IH]; simpl; [reflexivity|].
  destruct (String.eqb_spec (key x) i) as [Heq|_].
  - exfalso. apply Hnotin. now left.
  - apply IH. intros Hin. apply Hnotin. now right.
Qed.

Lemma sample_two_rows_ids_fresh : ids_fresh Sample.two_rows.
Proof.
  unfold Sample.two_rows, Sample.after_issue, Sample.after_receipt, Sample.master,
    Sample.start.
  repeat apply update_stock_ids_fresh.
  apply run_ids_fresh, empty_world_ids_fresh. exact sample_uuids_injective.
Qed.

(** ** Material codes *)

Lemma posting_keeps_master_data w r :
  match r with
  | PostGoodsReceipt _ | PostGoodsIssue _ =>
      materials (handle w r) = materials w /\ locations (handle w r) = locations w
  | PostLocation _ => materials (handle w r) = materials w
  | PostMaterial _ => locations (handle w r) = locations w
  end.
Proof.
  pose proof (posting_state w r) as Hp.
  destruct r as [location|material|gr|gi].
  - reflexivity.
  - simpl. unfold create_material, bind, gets.
    destruct (materials_find_one_by_code _ w); reflexivity.
  - destruct Hp as [-> | ->]; now split.
  - destruct Hp as [-> | ->]; now split.
Qed.

Lemma find_none_by_code code (l : list Material.t) :
  find (fun m => Material.material_code m =? code)%string l = None <->
  ~ In code (map Material.material_code l).
Proof.
  split.
  - intros Hnone Hin. apply in_map_iff in Hin as (m & Hm & Hin).
    pose proof (find_none _ _ Hnone m Hin) as Hfalse. simpl in Hfalse.
    now rewrite Hm, String.eqb_refl in Hfalse.
  - apply (find_none_by_id Material.material_code).
Qed.

Lemma handle_material_codes w r :
  NoDup (map Material.material_code (materials w)) ->
  NoDup (map Material.material_code (materials (handle w r))).
Proof.
  intros Hnd. pose proof (posting_keeps_master_data w r) as Hkeep.
  destruct r as [location|material|gr|gi].
  - now rewrite Hkeep.
  - simpl. unfold create_material, bind, gets.
    destruct (materials_find_one_by_code _ w) eqn:Hcode; cbn; [exact Hnd|].
    rewrite map_app. simpl.
    apply NoDup_app; [exact Hnd|repeat constructor; intros []|].
    intros k Hk [<-|[]]. now apply (proj1 (find_none_by_code _ _) Hcode).
  - destruct Hkeep as [-> _]. exact Hnd.
  - destruct Hkeep as [-> _]. exact Hnd.
Qed.

(** X9. Material codes stay unique: after any run from the empty database
    no two stored materials carry the same [material_code]. *)
Theorem material_codes_stay_unique
    (u : nat -> string) (c : nat -> datetime) (requests : list request) :
  NoDup (map Material.material_code (materials (run requests (empty_world u c)))).
Proof.
  assert (Hgen : forall w, NoDup (map Material.material_code (materials w)) ->
                           NoDup (map Material.material_code (materials (run requests w)))).
  { induction requests as [|r rest IH]; intros w Hnd; simpl; [exact Hnd|].
    apply IH, handle_material_codes, Hnd. }
  apply Hgen. constructor.
Qed.

(** X10. [create_material] succeeds exactly when no stored material has
    the requested code.  A taken code is answered with 400 "Material code
    already exists" and nothing is written, not even a call of [uuid4]. *)
Theorem create_material_succeeds_iff_code_new (material : MaterialCreate.t) (w : world) :
  ((exists m w', create_material material w = (Ok m, w')) <->
   ~ In (MaterialCreate.material_code material)
        (map Material.material_code (materials w))) /\
  ((exists m w', create_material material w = (Ok m, w')) \/
   create_material material w
     = (Raised (mkHTTPException 400 "Material code already exists"), w)).
Proof.
  unfold create_material, bind, gets.
  destruct (materials_find_one_by_code (MaterialCreate.material_code material) w)
    as [existing|] eqn:Hcode.
  - split; [|right; reflexivity]. split.
    + intros (m & w' & H). discriminate H.
    + intros Hnotin. apply find_none_by_code in Hnotin.
      unfold materials_find_one_by_code in Hcode. congruence.
  - split.
    + split; [|intros _; eexists; eexists; reflexivity].
      intros _. now apply (proj1 (find_none_by_code _ _)).
    + left. eexists. eexists. reflexivity.
Qed.

(** X11. A location passes the location check of the postings once it is
    created.  In a state whose identifiers are fresh draws of [uuid4],
    postings that name the identifier the new location is about to get are
    refused with 404 before [create_location]; after it the location is found
    with the plant code and storage location given at creation, and the same
    postings get as far as the header insert, where they raise
    [InvalidDocument]. *)
Theorem created_location_passes_location_check
    (location : LocationCreate.t) (gr : GoodsReceiptCreate.t)
    (gi : GoodsIssueCreate.t) (w : world) :
  ids_fresh w ->
  GoodsReceiptCreate.location_id gr = uuid_source w (tick w) ->
  GoodsIssueCreate.location_id gi = uuid_source w (tick w) ->
  exists loc w1 found,
    create_location location w = (Ok loc, w1) /\
    Location.id loc = uuid_source w (tick w) /\
    create_goods_receipt gr w
      = (Raised (mkHTTPException 404 "Location not found"), w) /\
    create_goods_issue gi w
      = (Raised (mkHTTPException 404 "Location not found"), w) /\
    locations_find_one (uuid_source w (tick w)) w1 = Some found /\
    Location.plant_code found = LocationCreate.plant_code location /\
    Location.storage_location found = LocationCreate.storage_location location /\
    fst (create_goods_receipt gr w1)
      = Raised (InvalidDocument (py_date (GoodsReceiptCreate.posting_date gr))) /\
    fst (create_goods_issue gi w1)
      = Raised (InvalidDocument (py_date (GoodsIssueCreate.posting_date gi))).
Proof.
  intros Hf Hgr Hgi.
  assert (Hnew : locations_find_one (uuid_source w (tick w)) w = None).
  { apply (find_none_by_id Location.id). intros Hin.
    apply (next_id_is_new w (tick w) Hf (le_n _)).
    unfold all_ids. apply in_or_app. right. apply in_or_app. now left. }
  pose (loc := Location.mk (uuid_source w (tick w)) (LocationCreate.plant_code location)
                (LocationCreate.plant_name location)
                (LocationCreate.storage_location location)
                (LocationCreate.description location) (clock w (S (tick w)))).
  pose (w1 := set_locations (locations w ++ [loc]) (set_tick (S (S (tick w))) w)).
  assert (Hfound : locations_find_one (uuid_source w (tick w)) w1 = Some loc).
  { unfold locations_find_one in *. subst w1. simpl.
    rewrite (find_app_none _ _ _ Hnew). simpl. now rewrite String.eqb_refl. }
  exists loc, w1, loc. conjuncts; try reflexivity.
  - apply create_goods_receipt_unknown. now rewrite Hgr.
  - apply create_goods_issue_unknown. now rewrite Hgi.
  - exact Hfound.
  - rewrite <- Hgr in Hfound. now rewrite (create_goods_receipt_run gr w1 loc Hfound).
  - rewrite <- Hgi in Hfound. now rewrite (create_goods_issue_run gi w1 loc Hfound).
Qed.

Lemma created_location_passes_location_check_witness :
  let next := uuid_source Sample.two_rows (tick Sample.two_rows) in
  exists loc w1,
    create_location (LocationCreate.mk "P002" "Second Plant" "SL09" None) Sample.two_rows
      = (Ok loc, w1) /\
    create_goods_receipt (Sample.receipt_of next Sample.M1 5) Sample.two_rows
      = (Raised (mkHTTPException 404 "Location not found"), Sample.two_rows) /\
    fst (create_goods_receipt (Sample.receipt_of next Sample.M1 5) w1)
      = Raised (InvalidDocument (py_date (mkDate 2024 1 15))).
Proof.
  intros next.
  edestruct (created_location_passes_location_check
               (LocationCreate.mk "P002" "Second Plant" "SL09" None)
               (Sample.receipt_of next Sample.M1 5)
               (Sample.issue_of GOODS_ISSUE_SALES next Sample.M1 5)
               Sample.two_rows)
    as (loc & w1 & found & H1 & _ & H3 & _ & _ & _ & _ & H8 & _).
  - exact sample_two_rows_ids_fresh.
  - reflexivity.
  - reflexivity.
  - exists loc, w1. split; [exact H1|]. split; [exact H3 | exact H8].
Defined.

(** ** Listings *)

Lemma to_list_grows {A : Type} (n : nat) (l added : list A) :
  to_list n (l ++ added) = to_list n (to_list n l ++ added).
Proof.
  unfold to_list. revert l. induction n as [|n IH]; intros l; [reflexivity|].
  destruct l as [|x rest]; simpl.
  - destruct added; reflexivity.
  - now rewrite IH.
Qed.

Lemma to_list_full {A : Type} (n : nat) (l added : list A) :
  List.length (to_list n l) = n ->
  to_list n (to_list n l ++ added) = to_list n l.
Proof.
  unfold to_list. intros Hlen.
  rewrite firstn_app, Hlen, Nat.sub_diag. simpl.
  rewrite app_nil_r. apply firstn_all2. lia.
Qed.

(** X12. The list routes answer with the first 1000 documents in
    insertion order and never more.  After any further requests a listing is
    the earlier listing with the newer documents appended, cut at 1000: what
    was listed stays listed at its place, and once 1000 documents are listed
    the answer no longer changes, so newer documents are never shown.
    Materials, locations, goods receipts and goods issues alike. *)
Theorem listings_grow_until_full (requests : list request) (w : world) :
  let w' := run requests w in
  (List.length (to_list 1000 (materials w')) <= 1000)%nat /\
  (List.length (to_list 1000 (locations w')) <= 1000)%nat /\
  (List.length (to_list 1000 (goods_receipts w')) <= 1000)%nat /\
  (List.length (to_list 1000 (goods_issues w')) <= 1000)%nat /\
  get_materials w' = (Ok (to_list 1000 (materials w')), w') /\
  get_locations w' = (Ok (to_list 1000 (locations w')), w') /\
  get_goods_receipts w' = (Ok (to_list 1000 (goods_receipts w')), w') /\
  get_goods_issues w' = (Ok (to_list 1000 (goods_issues w')), w') /\
  (exists added,
     to_list 1000 (materials w') = to_list 1000 (to_list 1000 (materials w) ++ added) /\
     (List.length (to_list 1000 (materials w)) = 1000%nat ->
      to_list 1000 (materials w') = to_list 1000 (materials w))) /\
  (exists added,
     to_list 1000 (locations w') = to_list 1000 (to_list 1000 (locations w) ++ added) /\
     (List.length (to_list 1000 (locations w)) = 1000%nat ->
      to_list 1000 (locations w') = to_list 1000 (locations w))) /\
  (exists added,
     to_list 1000 (goods_receipts w')
       = to_list 1000 (to_list 1000 (goods_receipts w) ++ added) /\
     (List.length (to_list 1000 (goods_receipts w)) = 1000%nat ->
      to_list 1000 (goods_receipts w') = to_list 1000 (goods_receipts w))) /\
  (exists added,
     to_list 1000 (goods_issues w')
       = to_list 1000 (to_list 1000 (goods_issues w) ++ added) /\
     (List.length (to_list 1000 (goods_issues w)) = 1000%nat ->
      to_list 1000 (goods_issues w') = to_list 1000 (goods_issues w))).
Proof.
  intros w'.
  destruct (run_evolves requests w)
    as (_ & _ & _ & [am Hm] & [al Hl] & [ar Hr] & [ai Hi] & _).
  fold w' in Hm, Hl, Hr, Hi.
  conjuncts; try reflexivity; try (unfold to_list; apply firstn_le_length).
  - exists am. rewrite Hm, to_list_grows. split; [reflexivity|]. apply to_list_full.
  - exists al. rewrite Hl, to_list_grows. split; [reflexivity|]. apply to_list_full.
  - exists ar. rewrite Hr, to_list_grows. split; [reflexivity|]. apply to_list_full.
  - exists ai. rewrite Hi, to_list_grows. split; [reflexivity|]. apply to_list_full.
Qed.

(** ** Movement history *)

Lemma insert_newest_first_perm e l :
  Permutation (e :: l) (insert_newest_first e l).
Proof.
  induction l as [|y rest IH]; simpl; [apply Permutation_refl|].
  destruct (StockMovement.created_at e <? StockMovement.created_at y).
  - eapply perm_trans; [apply perm_swap|]. now apply perm_skip.
  - apply Permutation_refl.
Qed.

Lemma sort_created_at_desc_perm l : Permutation l (sort_created_at_desc l).
Proof.
  induction l as [|x rest IH]; simpl; [apply perm_nil|].
  eapply perm_trans; [apply perm_skip, IH|apply insert_newest_first_perm].
Qed.

Lemma insert_newest_first_sorted e l :
  StronglySorted not_newer l -> StronglySorted not_newer (insert_newest_first e l).
Proof.
  induction 1 as [|y rest Hrest IH Hy]; simpl.
  - repeat constructor.
  - destruct (Z.ltb_spec (StockMovement.created_at e) (StockMovement.created_at y))
      as [Hlt|Hge].
    + constructor; [exact IH|].
      apply Forall_forall. intros z Hz.
      apply (Permutation_in _ (Permutation_sym (insert_newest_first_perm e rest))) in Hz.
      destruct Hz as [<-|Hz].
      * unfold not_newer. lia.
      * exact (proj1 (Forall_forall _ _) Hy z Hz).
    + constructor; [now constructor|].
      constructor; [exact Hge|].
      apply Forall_forall. intros z Hz.
      pose proof (proj1 (Forall_forall _ _) Hy z Hz) as Hzy.
      unfold not_newer in *. lia.
Qed.

Lemma sort_created_at_desc_sorted l :
  StronglySorted not_newer (sort_created_at_desc l).
Proof.
  induction l as [|x rest IH]; simpl; [constructor|].
  now apply insert_newest_first_sorted.
Qed.

Lemma sorted_split_not_newer (l1 l2 : list StockMovement.t) :
  StronglySorted not_newer (l1 ++ l2) ->
  StronglySorted not_newer l1 /\
  forall a b, In a l1 -> In b l2 -> not_newer a b.
Proof.
  induction l1 as [|x rest IH]; simpl; intros Hs.
  - split; [constructor|]. intros a b [].
  - inversion Hs as [|? ? Hrest Hx]; subst.
    destruct (IH Hrest) as [Hsorted Hcross]. split.
    + constructor; [exact Hsorted|].
      apply Forall_forall. intros z Hz.
      apply (proj1 (Forall_forall _ _) Hx). apply in_or_app. now left.
    + intros a b [<-|Ha] Hb.
      * apply (proj1 (Forall_forall _ _) Hx). apply in_or_app. now right.
      * now apply Hcross.
Qed.

(** X13. The movement history is the ledger newest first, cut at 1000:
    what is listed together with what is left out is a rearrangement of the
    ledger, the listing never rises in [created_at], it has
    [min 1000 (number of entries)] entries, and no entry left out is newer
    than a listed one.  The call changes nothing. *)
Theorem movement_history_newest_first (w : world) :
  exists listed omitted,
    get_stock_movements w = (Ok listed, w) /\
    Permutation (listed ++ omitted) (stock_movements w) /\
    StronglySorted not_newer listed /\
    List.length listed = Nat.min 1000 (List.length (stock_movements w)) /\
    forall a b, In a listed -> In b omitted -> not_newer a b.
Proof.
  set (sorted := sort_created_at_desc (stock_movements w)).
  exists (firstn 1000 sorted), (skipn 1000 sorted).
  pose proof (sort_created_at_desc_sorted (stock_movements w)) as Hsorted.
  fold sorted in Hsorted. rewrite <- (firstn_skipn 1000 sorted) in Hsorted.
  destruct (sorted_split_not_newer _ _ Hsorted) as [Hfirst Hcross].
  conjuncts.
  - reflexivity.
  - rewrite firstn_skipn. apply Permutation_sym, sort_created_at_desc_perm.
  - exact Hfirst.
  - rewrite length_firstn. f_equal.
    apply Permutation_length, Permutation_sym, sort_created_at_desc_perm.
  - exact Hcross.
Qed.

(** ** Invoices *)

Lemma existsb_by_id (invoice_id : string) (l : list Invoice.t) :
  existsb (fun i => Invoice.id i =? invoice_id)%string l = true <->
  In invoice_id (map Invoice.id l).
Proof.
  rewrite existsb_exists, in_map_iff. split.
  - intros (i & Hin & Heq). apply String.eqb_eq in Heq. now exists i.
  - intros (i & Heq & Hin). exists i. split; [exact Hin|]. now apply String.eqb_eq.
Qed.

Lemma update_one_no_match {A : Type} (p : A -> bool) (f : A -> A) (l : list A) :
  existsb p l = false -> update_one p f l = l.
Proof.
  induction l as [|x rest IH]; simpl; [reflexivity|].
  destruct (p x); simpl; [discriminate|]. intros H. now rewrite IH.
Qed.

Lemma update_one_first_match {A : Type} (p : A -> bool) (f : A -> A) (l : list A) (x : A) :
  find p l = Some x ->
  exists before after,
    l = (before ++ x :: after)%list /\
    forallb (fun y => negb (p y)) before = true /\
    update_one p f l = (before ++ f x :: after)%list.
Proof.
  induction l as [|y rest IH]; simpl; [discriminate|].
  destruct (p y) eqn:Hp.
  - intros H. injection H as ->. exists [], rest. now repeat split.
  - intros H. destruct (IH H) as (before & after & -> & Hall & Hupd).
    exists (y :: before), after. simpl. rewrite Hp, Hupd. now repeat split.
Qed.

Lemma find_existsb {A : Type} (p : A -> bool) (l : list A) (x : A) :
  find p l = Some x -> existsb p l = true.
Proof.
  intros H. apply find_some in H as [Hin Hp]. apply existsb_exists. now exists x.
Qed.

Lemma set_invoices_same s : set_invoices (invoices s) s = s.
Proof. now destruct s. Qed.

(** X15. [update_invoice_status] on an identifier no invoice has raises
    404 "Invoice not found"; the update it sent before looking at the match
    count has written nothing, the database is as it was. *)
Theorem update_invoice_status_unknown_id
    (invoice_id : string) (status : InvoiceStatus) (s : server) :
  ~ In invoice_id (map Invoice.id (invoices s)) ->
  update_invoice_status invoice_id status s
    = (Raised (mkHTTPException 404 "Invoice not found"), s).
Proof.
  intros Hnotin. unfold update_invoice_status, matched_count.
  destruct (existsb (fun i => Invoice.id i =? invoice_id)%string (invoices s)) eqn:He.
  - exfalso. now apply Hnotin, existsb_by_id.
  - cbv zeta. simpl. now rewrite (update_one_no_match _ _ _ He), set_invoices_same.
Qed.

Lemma update_invoice_status_unknown_id_witness :
  update_invoice_status "no-such-invoice" VERIFIED Office.two_invoices
    = (Raised (mkHTTPException 404 "Invoice not found"), Office.two_invoices).
Proof.
  apply update_invoice_status_unknown_id.
  vm_compute. intros [H|[H|[]]]; discriminate H.
Defined.

(** X16. [update_invoice_status] on a known identifier answers
    "Status updated successfully" and rewrites the first invoice carrying
    that identifier, and of it the status only: the invoices before and after
    it, its other fields, the purchase orders and the stock collections stay
    as they were. *)
Theorem update_invoice_status_sets_status_only
    (invoice_id : string) (status : InvoiceStatus) (s : server) (inv : Invoice.t) :
  find (fun i => Invoice.id i =? invoice_id)%string (invoices s) = Some inv ->
  exists s' before after inv',
    update_invoice_status invoice_id status s = (Ok "Status updated successfully", s') /\
    invoices s = (before ++ inv :: after)%list /\
    invoices s' = (before ++ inv' :: after)%list /\
    Invoice.status inv' = status /\
    Invoice.id inv' = invoice_id /\
    Invoice.invoice_number inv' = Invoice.invoice_number inv /\
    Invoice.vendor_code inv' = Invoice.vendor_code inv /\
    Invoice.vendor_name inv' = Invoice.vendor_name inv /\
    Invoice.invoice_date inv' = Invoice.invoice_date inv /\
    Invoice.invoice_amount inv' = Invoice.invoice_amount inv /\
    Invoice.file_path inv' = Invoice.file_path inv /\
    Invoice.created_at inv' = Invoice.created_at inv /\
    purchase_orders s' = purchase_orders s /\
    core s' = core s.
Proof.
  intros Hfind.
  destruct (update_one_first_match _ (set_status status) _ _ Hfind)
    as (before & after & Hl & _ & Hupd).
  unfold update_invoice_status, matched_count.
  rewrite (find_existsb _ _ _ Hfind). cbv zeta. simpl.
  eexists. exists before, after, (set_status status inv).
  conjuncts; try reflexivity; try assumption.
  apply find_some in Hfind as [_ Hid]. now apply String.eqb_eq in Hid.
Qed.

Lemma update_invoice_status_sets_status_only_witness :
  exists s',
    update_invoice_status Office.first_id BLOCKED Office.two_invoices
      = (Ok "Status updated successfully", s') /\
    map (fun i => (Invoice.invoice_number i, Invoice.status i)) (invoices s')
      = [("INV001", BLOCKED); ("INV002", PENDING)].
Proof.
  edestruct (update_invoice_status_sets_status_only
               Office.first_id BLOCKED Office.two_invoices)
    as (s' & before & after & inv' & H1 & _).
  - vm_compute; reflexivity.
  - exists s'. split; [exact H1|].
    assert (E : s' = snd (update_invoice_status Office.first_id BLOCKED
                            Office.two_invoices)) by now rewrite H1.
    rewrite E. vm_compute. reflexivity.
Defined.

(** X17. Of two status updates of the same invoice the last one wins: the
    state after both is the state after the second alone, and the two runs
    give the same answer. *)
Theorem update_invoice_status_last_write_wins
    (invoice_id : string) (first second : InvoiceStatus) (s : server) :
  update_invoice_status invoice_id second
    (snd (update_invoice_status invoice_id first s))
  = update_invoice_status invoice_id second s.
Proof.
  unfold update_invoice_status, matched_count. cbv zeta.
  set (by_id := fun i => (Invoice.id i =? invoice_id)%string).
  assert (Hsnd : forall (b : bool) (x y : outcome string) (t : server),
             snd (if b then (x, t) else (y, t)) = t) by (now intros []).
  rewrite Hsnd. simpl.
  assert (Hlist : forall l,
             existsb by_id (update_one by_id (set_status first) l) = existsb by_id l /\
             update_one by_id (set_status second) (update_one by_id (set_status first) l)
             = update_one by_id (set_status second) l).
  { induction l as [|x rest [IH1 IH2]]; simpl; [now split|].
    destruct (by_id x) eqn:Hx; simpl.
    - change (by_id (set_status first x)) with (by_id x). rewrite Hx. simpl. now split.
    - rewrite Hx. simpl. now rewrite IH1, IH2. }
  destruct (Hlist (invoices s)) as [-> ->]. reflexivity.
Qed.

(** ** The dashboard *)

Lemma pending_count_app (l1 l2 : list Invoice.t) :
  List.length (filter is_pending (l1 ++ l2)) =
  (List.length (filter is_pending l1) + List.length (filter is_pending l2))%nat.
Proof. now rewrite filter_app, length_app. Qed.

(** X18. The pending counter of the dashboard follows the status of the
    invoices on file.  A status update of a known invoice takes that invoice
    out of the count if it was pending and puts it in if the new status is
    pending; the other four counters do not move. *)
Theorem pending_invoices_follow_status
    (invoice_id : string) (status : InvoiceStatus) (s : server) (inv : Invoice.t) :
  find (fun i => Invoice.id i =? invoice_id)%string (invoices s) = Some inv ->
  exists before s2 updated,
    get_dashboard_stats s = (Ok before, s) /\
    update_invoice_status invoice_id status s = (Ok "Status updated successfully", s2) /\
    get_dashboard_stats s2 = (Ok updated, s2) /\
    (pending_invoices updated + (if is_pending inv then 1 else 0)
     = pending_invoices before
       + (if (InvoiceStatus_value status =? "pending")%string then 1 else 0))%nat /\
    total_materials updated = total_materials before /\
    total_locations updated = total_locations before /\
    total_receipts updated = total_receipts before /\
    total_issues updated = total_issues before.
Proof.
  intros Hfind.
  destruct (update_one_first_match _ (set_status status) _ _ Hfind)
    as (l1 & l2 & Hl & _ & Hupd).
  unfold update_invoice_status, matched_count.
  rewrite (find_existsb _ _ _ Hfind). cbv zeta. simpl.
  eexists. eexists. eexists.
  conjuncts; try reflexivity.
  simpl. rewrite Hupd, Hl, !pending_count_app. simpl.
  change (is_pending (set_status status inv))
    with (InvoiceStatus_value status =? "pending")%string.
  destruct (is_pending inv), (InvoiceStatus_value status =? "pending")%string;
    simpl; lia.
Qed.

(** With two pending invoices on file, posting the first one leaves one. *)
Lemma pending_invoices_follow_status_witness :
  exists s2 updated,
    update_invoice_status Office.first_id POSTED Office.two_invoices
      = (Ok "Status updated successfully", s2) /\
    get_dashboard_stats s2 = (Ok updated, s2) /\
    pending_invoices updated = 1%nat.
Proof.
  edestruct (pending_invoices_follow_status Office.first_id POSTED Office.two_invoices)
    as (before & s2 & updated & H1 & H2 & H3 & H4 & _);
    [vm_compute; reflexivity|].
  unfold get_dashboard_stats in H1. injection H1 as Hb.
  assert (P : pending_invoices before = 2%nat) by (rewrite <- Hb; reflexivity).
  match type of H4 with
  | context [is_pending ?i] =>
      assert (Q : is_pending i = true) by (vm_compute; reflexivity); rewrite Q in H4
  end.
  rewrite P in H4. simpl in H4.
  exists s2, updated.
  split; [exact H2|]. split; [exact H3|]. lia.
Defined.

Lemma length_extended {A : Type} (l : list A) (x : A) :
  List.length (l ++ [x]) = S (List.length l).
Proof. rewrite length_app. simpl. lia. Qed.

(** X19. The other four counters of the dashboard count answered
    requests.  Serving a request raises the counter of its kind by one when
    the route answered without error and leaves it alone when it raised; the
    remaining counters, pending invoices included, do not move. *)
Theorem dashboard_counts_answered_requests (s : server) (r : request) :
  exists before after,
    get_dashboard_stats s = (Ok before, s) /\
    get_dashboard_stats (serve s r) = (Ok after, serve s r) /\
    let one := if answered (core s) r then 1%nat else 0%nat in
    after =
      match r with
      | PostLocation _ =>
          mkDashboardStats (total_materials before) (total_locations before + one)
            (pending_invoices before) (total_receipts before) (total_issues before)
      | PostMaterial _ =>
          mkDashboardStats (total_materials before + one) (total_locations before)
            (pending_invoices before) (total_receipts before) (total_issues before)
      | PostGoodsReceipt _ =>
          mkDashboardStats (total_materials before) (total_locations before)
            (pending_invoices before) (total_receipts before + one) (total_issues before)
      | PostGoodsIssue _ =>
          mkDashboardStats (total_materials before) (total_locations before)
            (pending_invoices before) (total_receipts before) (total_issues before + one)
      end.
Proof.
  eexists. eexists. split; [reflexivity|]. split; [reflexivity|].
  cbv zeta. unfold serve, answered. simpl.
  destruct r as [location|material|gr|gi]; simpl.
  - unfold create_location, bind. cbn. rewrite length_extended.
    f_equal. lia.
  - unfold create_material, bind, gets.
    destruct (materials_find_one_by_code _ (core s)); cbn.
    + f_equal. lia.
    + rewrite length_extended. f_equal. lia.
  - destruct (create_goods_receipt_cases gr (core s)) as [-> | ->]; simpl;
      f_equal; lia.
  - destruct (create_goods_issue_cases gi (core s)) as [-> | ->]; simpl;
      f_equal; lia.
Qed.

(** ** Purchase orders and invoices *)

(** X20. A purchase order or an invoice cannot be stored.  The object is
    built (one call of [uuid4], one of [utcnow]), its [insert_one] raises
    [InvalidDocument] on [po_date] resp. [invoice_date], and the route ends
    there: both collections and both listings are what they were, and so are
    the stock collections apart from the two calls spent. *)
Theorem orders_and_invoices_cannot_be_stored
    (po : PurchaseOrderCreate.t) (invoice : InvoiceCreate.t) (s : server) :
  (exists s1,
     create_purchase_order po s
       = (Raised (InvalidDocument (py_date (PurchaseOrderCreate.po_date po))), s1) /\
     purchase_orders s1 = purchase_orders s /\
     invoices s1 = invoices s /\
     core s1 = set_tick (2 + tick (core s)) (core s) /\
     fst (get_purchase_orders s1) = fst (get_purchase_orders s)) /\
  (exists s1,
     create_invoice invoice s
       = (Raised (InvalidDocument (py_date (InvoiceCreate.invoice_date invoice))), s1) /\
     purchase_orders s1 = purchase_orders s /\
     invoices s1 = invoices s /\
     core s1 = set_tick (2 + tick (core s)) (core s) /\
     fst (get_invoices s1) = fst (get_invoices s)).
Proof.
  split.
  - unfold create_purchase_order, route_bind, lift, uuid4, utcnow, route_insert_one.
    cbv beta iota zeta. rewrite PurchaseOrder_dict_unencodable.
    eexists. split; [reflexivity|]. repeat split.
  - unfold create_invoice, route_bind, lift, uuid4, utcnow, route_insert_one.
    cbv beta iota zeta. rewrite Invoice_dict_unencodable.
    eexists. split; [reflexivity|]. repeat split.
Qed.

(** ** More on update_stock and the ledger *)

(** X21. [update_stock] succeeds exactly when both the material and the
    location resolve; otherwise it raises 404 "Material or Location not
    found" before reading or writing any balance row, and the state is as it
    was. *)
Theorem update_stock_succeeds_iff_resolved
    (mid lid : string) (q : Z) (mt : MovementType) (uom : string) (w : world) :
  ((exists w', update_stock mid lid q mt uom w = (Ok tt, w')) <->
   (resolves mid w = true /\ locations_find_one lid w <> None)) /\
  ((exists w', update_stock mid lid q mt uom w = (Ok tt, w')) \/
   update_stock mid lid q mt uom w
     = (Raised (mkHTTPException 404 "Material or Location not found"), w)).
Proof.
  unfold resolves.
  destruct (materials_find_one mid w) as [mat|] eqn:Hm.
  - destruct (locations_find_one lid w) as [loc|] eqn:Hl.
    + assert (Hok : exists w', update_stock mid lid q mt uom w = (Ok tt, w')).
      { destruct (current_stock_find_one mid lid w) as [sr|] eqn:Hs.
        - eexists. exact (update_stock_existing _ _ q mt uom _ _ _ _ Hm Hl Hs).
        - eexists. exact (update_stock_absent _ _ q mt uom _ _ _ Hm Hl Hs). }
      split; [|left; exact Hok].
      split; [intros _; split; [reflexivity|discriminate]|intros _; exact Hok].
    + rewrite update_stock_unresolved by (right; exact Hl).
      split; [|right; reflexivity].
      split; [intros (w' & H); discriminate H|intros [_ H]; now contradiction H].
  - rewrite update_stock_unresolved by (left; exact Hm).
    split; [|right; reflexivity].
    split; [intros (w' & H); discriminate H|intros [H _]; discriminate H].
Qed.


Lemma sample_master_well_formed : well_formed Sample.master.
Proof.
  assert (Hcs : current_stock Sample.master = []) by (vm_compute; reflexivity).
  assert (Hu : uuid_source Sample.master = Sample.uuids) by reflexivity.
  unfold well_formed. rewrite Hcs, Hu. repeat split.
  - exact sample_uuids_injective.
  - intros i [].
  - constructor.
Qed.

(** X22. [update_stock] keeps the identifiers of the balance rows apart.
    When they are distinct values drawn from a [uuid4] that never repeats
    itself, they still are after the call, whether it rewrote a row, appended
    one or raised: the condition under which updating by [id] hits the row
    found by material and location carries over from call to call. *)
Theorem update_stock_keeps_row_ids_distinct
    (mid lid : string) (q : Z) (mt : MovementType) (uom : string) (w : world) :
  well_formed w ->
  well_formed (snd (update_stock mid lid q mt uom w)) /\
  ids_unique (snd (update_stock mid lid q mt uom w)).
Proof.
  intros Hwf.
  assert (H : well_formed (snd (update_stock mid lid q mt uom w))).
  { destruct (materials_find_one mid w) as [mat|] eqn:Hm;
      [|rewrite update_stock_unresolved by (now left); exact Hwf].
    destruct (locations_find_one lid w) as [loc|] eqn:Hl;
      [|rewrite update_stock_unresolved by (now right); exact Hwf].
    destruct (update_stock_effect mid lid q mt uom w mat loc Hm Hl Hwf)
      as (w' & Hrun & Hwf' & _).
    now rewrite Hrun. }
  split; [exact H | exact (well_formed_ids_unique _ H)].
Qed.

Lemma update_stock_keeps_row_ids_distinct_witness :
  ids_unique
    (snd (update_stock Sample.M2 Sample.L 40 GOODS_RECEIPT "KG"
            (snd (update_stock Sample.M1 Sample.L 100 GOODS_RECEIPT "PC" Sample.master)))).
Proof.
  apply update_stock_keeps_row_ids_distinct.
  apply update_stock_keeps_row_ids_distinct.
  exact sample_master_well_formed.
Defined.
